(** * Steam-Time-Series: the ingestion pipeline

    A shallow embedding of [src/src/ingestion/ingestion_pipeline.py]
    (class [IngestionPipeline]) and of the older script
    [src/src/ingest_data.py].

    Modelling choices:
    - a pandas [Timestamp] is a [Z] counting milliseconds since the Unix
      epoch (the code builds them with [pd.to_datetime(x[0], unit="ms")]),
      and a missing timestamp ([NaT], e.g. the [max] of an empty column) is
      [None]; every comparison involving [NaT] is false, as in pandas;
    - a [DataFrame] is its list of category columns (the ["Timestamp"]
      column apart) and its list of rows; a row holds its timestamp and the
      category values present in it (an absent category is a missing value);
    - the two CSV files are the two slots of a [store]; [read_csv] followed
      by [to_csv] is taken to preserve the data (text formatting of the
      file is not modelled);
    - network responses and JSON decoding are inputs of the pipeline: the
      text returned for each cache-busting identifier and the decoders that
      play [loads] (their failure is a [JSONDecodeError]);
    - an uncaught Python exception is the [inl] side of the result; writes
      done before it stay in the store. *)

From Stdlib Require Import ZArith List String Ascii Bool Lia Sorted.
Import ListNotations.
Open Scope Z_scope.

(** ** Data model *)

Definition timestamp := Z.

Record row := mk_row { ts : timestamp; vals : list (string * Z) }.

Record DataFrame := mk_df { columns : list string; rows : list row }.

(** [df["Timestamp"].max()] and [.min()]: [NaT] on an empty frame. This
    is the datetime case only: a frame without rows whose "Timestamp"
    column is not of datetime type (a batch parsed from series without data
    points) gives [nan] in pandas, and comparing or subtracting [nan] and a
    timestamp raises [TypeError], which this model does not represent. *)
Fixpoint ts_max (rs : list row) : option timestamp :=
  match rs with
  | [] => None
  | r :: rs' =>
      match ts_max rs' with
      | None => Some (ts r)
      | Some m => Some (Z.max (ts r) m)
      end
  end.

Fixpoint ts_min (rs : list row) : option timestamp :=
  match rs with
  | [] => None
  | r :: rs' =>
      match ts_min rs' with
      | None => Some (ts r)
      | Some m => Some (Z.min (ts r) m)
      end
  end.

(** [a > b] on timestamps; false as soon as one side is [NaT]. *)
Definition ts_gt (a b : option timestamp) : bool :=
  match a, b with
  | Some x, Some y => y <? x
  | _, _ => false
  end.

(** [(a - b).total_seconds() // 60]: [NaN] (here [None]) when a side is [NaT]. *)
Definition diff_minutes (a b : option timestamp) : option Z :=
  match a, b with
  | Some x, Some y => Some ((x - y) / 60000)
  | _, _ => None
  end.

(** [(a - b).days]: whole days, rounded towards minus infinity. *)
Definition diff_days (a b : option timestamp) : option Z :=
  match a, b with
  | Some x, Some y => Some ((x - y) / 86400000)
  | _, _ => None
  end.

(** [x <= k]; false on [NaN]. *)
Definition le_num (x : option Z) (k : Z) : bool :=
  match x with
  | Some v => v <=? k
  | None => false
  end.

(** [Timestamp.hour] of a timezone-naive UTC timestamp. *)
Definition hour (t : timestamp) : Z := (t / 3600000) mod 24.

(** [df.loc[df["Timestamp"] > bound]] *)
Definition loc_after (df : DataFrame) (bound : option timestamp) : DataFrame :=
  mk_df (columns df) (filter (fun r => ts_gt (Some (ts r)) bound) (rows df)).

(** [pd.concat([a, b], axis=0, ignore_index=True)]: the columns are the
    union (those of [a] first), the rows those of [a] then those of [b]. *)
Definition concat (a b : DataFrame) : DataFrame :=
  mk_df (columns a ++ filter (fun c => negb (existsb (String.eqb c) (columns a)))
                             (columns b))
        (rows a ++ rows b).

(** ** Errors, files and the pipeline monad *)

Inductive exn :=
| FileNotFoundError
| AssertionError (msg : string)
| JSONDecodeError
| TypeError_reduce_empty.

Inductive feed := Bandwidth | Support.

Record store := mk_store {
  bandwidth_csv : option DataFrame;   (* BANDWIDTH_USE_DATA_PATH *)
  support_csv : option DataFrame      (* SUPPORT_REQUESTS_DATA_PATH *)
}.

Definition M (S A : Type) := S -> S * (exn + A).

Definition ret {S A} (a : A) : M S A := fun s => (s, inr a).

Definition bind {S A B} (m : M S A) (k : A -> M S B) : M S B :=
  fun s => match m s with
           | (s', inl e) => (s', inl e)
           | (s', inr a) => k a s'
           end.

Notation "x <- m ;; k" := (bind m (fun x => k))
  (at level 61, m at next level, right associativity).

Definition raise {S A} (e : exn) : M S A := fun s => (s, inl e).

Definition lift {S A} (r : exn + A) : M S A := fun s => (s, r).

(** [assert cond, msg] *)
Definition assert_ {S} (cond : bool) (msg : string) : M S unit :=
  if cond then ret tt else raise (AssertionError msg).

Definition file_of (f : feed) (st : store) : option DataFrame :=
  match f with
  | Bandwidth => bandwidth_csv st
  | Support => support_csv st
  end.

(** [pd.read_csv(path, parse_dates=["Timestamp"])] *)
Definition read_csv (f : feed) : M store DataFrame :=
  fun st => match file_of f st with
            | Some df => (st, inr df)
            | None => (st, inl FileNotFoundError)
            end.

(** [df.to_csv(path, index=False)]: replaces the file. *)
Definition to_csv (f : feed) (df : DataFrame) : M store unit :=
  fun st => match f with
            | Bandwidth => (mk_store (Some df) (support_csv st), inr tt)
            | Support => (mk_store (bandwidth_csv st) (Some df), inr tt)
            end.

(** ** [IngestionPipeline.__merge_with_old] *)

(** The "# Update bandwidth data" half (lines 120-142). *)
Definition merge_bandwidth (new_bandwidth_df : DataFrame) : M store unit :=
  old_bandwidth_df <- read_csv Bandwidth ;;
  let end_timestamp_bandwidth_old := ts_max (rows old_bandwidth_df) in
  let start_timestamp_bandwidth_new := ts_min (rows new_bandwidth_df) in
  let end_timestamp_bandwidth_new := ts_max (rows new_bandwidth_df) in
  if ts_gt end_timestamp_bandwidth_new end_timestamp_bandwidth_old then
    let diff := diff_minutes start_timestamp_bandwidth_new
                             end_timestamp_bandwidth_old in
    _ <- assert_ (le_num diff 10) "Data gap exists" ;;
    let new_df := loc_after new_bandwidth_df end_timestamp_bandwidth_old in
    let updated_bandwidth_df := concat old_bandwidth_df new_df in
    to_csv Bandwidth updated_bandwidth_df
  else ret tt.

(** The "# Update support data" half (lines 144-167). *)
Definition merge_support (new_support_df : DataFrame) : M store unit :=
  old_support_df <- read_csv Support ;;
  let end_timestamp_support_old := ts_max (rows old_support_df) in
  let start_timestamp_support_new := ts_min (rows new_support_df) in
  let end_timestamp_support_new := ts_max (rows new_support_df) in
  if ts_gt end_timestamp_support_new end_timestamp_support_old &&
     match end_timestamp_support_new with
     | Some e => hour e =? 7
     | None => false
     end then
    let diff := diff_days start_timestamp_support_new end_timestamp_support_old in
    _ <- assert_ (le_num diff 1) "Data gap exists" ;;
    let new_df := loc_after new_support_df end_timestamp_support_old in
    let updated_support_df := concat old_support_df new_df in
    to_csv Support updated_support_df
  else ret tt.

Definition merge_with_old (new_bandwidth_df new_support_df : DataFrame)
  : M store unit :=
  _ <- merge_bandwidth new_bandwidth_df ;;
  merge_support new_support_df.

(** ** Parsing the responses *)

(** Python's [str.find] for one character: [-1] when absent. *)
Fixpoint find_from (c : ascii) (s : string) (i : Z) : Z :=
  match s with
  | EmptyString => -1
  | String a s' => if Ascii.eqb a c then i else find_from c s' (i + 1)
  end.

Definition py_find (c : ascii) (s : string) : Z := find_from c s 0.

(** A Python slice bound: negative counts from the end, then clamped. *)
Definition slice_index (len i : Z) : Z :=
  if i <? 0 then Z.max 0 (len + i) else Z.min i len.

(** [s[a:b]] *)
Definition py_slice (s : string) (a b : Z) : string :=
  let len := Z.of_nat (String.length s) in
  let a' := slice_index len a in
  let b' := slice_index len b in
  if a' <? b' then substring (Z.to_nat a') (Z.to_nat (b' - a')) s
  else EmptyString.

(** A decoded series: its ["label"] and its ["data"] pairs
    [[epoch_ms, value]]. *)
Record series := mk_series { label : string; data : list (Z * Z) }.

(** [pd.DataFrame({"Timestamp": [...], region: [...]})] *)
Definition series_frame (col : string) (s : series) : DataFrame :=
  mk_df [col] (map (fun p => mk_row (fst p) [(col, snd p)]) (data s)).

(** [pd.merge(x, y, on="Timestamp", how="outer")]: every row of [x] joined
    with each row of [y] at the same timestamp (kept alone when there is
    none), then the rows of [y] matching no row of [x]. The labels of the
    series are taken to be distinct (pandas would suffix equal ones). *)
Definition merge_outer (x y : DataFrame) : DataFrame :=
  let same r m := Z.eqb (ts r) (ts m) in
  mk_df (columns x ++ columns y)
    (flat_map (fun r => match filter (same r) (rows y) with
                        | [] => [r]
                        | ms => map (fun m => mk_row (ts r) (vals r ++ vals m)) ms
                        end) (rows x)
     ++ filter (fun m => negb (existsb (fun r => same r m) (rows x))) (rows y)).

(** [reduce(merge_outer, df_list)]: a [TypeError] on an empty list. *)
Definition reduce_merge (dfs : list DataFrame) : exn + DataFrame :=
  match dfs with
  | [] => inl TypeError_reduce_empty
  | d :: ds => inr (fold_left merge_outer ds d)
  end.

(** [df.sort_values("Timestamp").reset_index(drop=True)], as a stable
    insertion sort (pandas' default sort does not fix the order of rows
    with equal timestamps). *)
Fixpoint insert_row (r : row) (rs : list row) : list row :=
  match rs with
  | [] => [r]
  | r' :: rs' => if ts r <? ts r' then r :: rs else r' :: insert_row r rs'
  end.

Definition sort_values (df : DataFrame) : DataFrame :=
  mk_df (columns df) (fold_right insert_row [] (rows df)).

(** [str.replace(pat, rep)] for a non-empty [pat], left to right. *)
Fixpoint replace_aux (pat rep : string) (skip : nat) (s : string) : string :=
  match s with
  | EmptyString => EmptyString
  | String c s' =>
      match skip with
      | S k => replace_aux pat rep k s'
      | O => if String.prefix pat s
             then rep ++ replace_aux pat rep (String.length pat - 1) s'
             else String c (replace_aux pat rep O s')
      end
  end.

Definition str_replace (pat rep s : string) : string := replace_aux pat rep O s.

(** [str.strip()]: a character is one code point below 256, and the
    whitespace of [str.isspace] there is 9-13, 28-32, 133 and 160. *)
Definition is_space (c : ascii) : bool :=
  let n := nat_of_ascii c in
  ((9 <=? n)%nat && (n <=? 13)%nat) || ((28 <=? n)%nat && (n <=? 32)%nat) ||
  (n =? 133)%nat || (n =? 160)%nat.

Fixpoint drop_spaces (l : list ascii) : list ascii :=
  match l with
  | c :: l' => if is_space c then drop_spaces l' else l
  | [] => []
  end.

Definition strip (s : string) : string :=
  string_of_list_ascii
    (rev (drop_spaces (rev (drop_spaces (list_ascii_of_string s))))).

(** ** Fetching the newest batches *)

Section Fetch.

(** The response text of the bandwidth endpoint for a [v] parameter. *)
Variable fetch_bandwidth : string -> string.
(** [loads(loads(payload)["json"])]: the series list of a payload. *)
Variable loads_bandwidth : string -> option (list series).
(** [response.json()] of the support endpoint. *)
Variable support_response : option (list series).

(** One loop iteration's parse (lines 53-73). *)
Definition parse_bandwidth_response (text : string) : exn + DataFrame :=
  let startidx := py_find "(" text in
  let endidx := py_find ")" text in
  match loads_bandwidth (py_slice text (startidx + 1) endidx) with
  | None => inl JSONDecodeError
  | Some series_list =>
      match reduce_merge (map (fun s => series_frame (label s) s) series_list) with
      | inl e => inl e
      | inr df => inr (sort_values df)
      end
  end.

(** The [for v in candidates] loop with its bookkeeping [newest_df] and
    [most_recent_timestamp] (the outer [None] is Python's [None], the
    inner one [NaT]). *)
Fixpoint probe_loop (candidates : list string) (newest_df : option DataFrame)
    (most_recent_timestamp : option (option timestamp))
  : exn + option DataFrame :=
  match candidates with
  | [] => inr newest_df
  | v :: rest =>
      match parse_bandwidth_response (fetch_bandwidth v) with
      | inl e => inl e
      | inr df =>
          let last_timestamp := ts_max (rows df) in
          if match most_recent_timestamp with
             | None => true
             | Some m => ts_gt last_timestamp m
             end
          then probe_loop rest (Some df) (Some last_timestamp)
          else probe_loop rest newest_df most_recent_timestamp
      end
  end.

(** [IngestionPipeline.__get_newest_bandwidth_data]; [candidates] is
    [[v1, v2, v3, v4]], computed from the clock. *)
Definition get_newest_bandwidth_data (candidates : list string)
  : exn + DataFrame :=
  match probe_loop candidates None None with
  | inl e => inl e
  | inr None => inl (AssertionError "No data found")
  | inr (Some df) => inr df
  end.

(** [IngestionPipeline.__get_newest_support_data] *)
Definition get_newest_support_data : exn + DataFrame :=
  match support_response with
  | None => inl JSONDecodeError
  | Some series_list =>
      let frame s :=
        series_frame (strip (str_replace "requests" "" (label s))) s in
      match reduce_merge (map frame series_list) with
      | inl e => inl e
      | inr df => inr (sort_values df)
      end
  end.

(** [IngestionPipeline.run] *)
Definition run (candidates : list string) : M store unit :=
  bandwidth_df <- lift (get_newest_bandwidth_data candidates) ;;
  support_df <- lift get_newest_support_data ;;
  merge_with_old bandwidth_df support_df.

End Fetch.

(** ** The older script [src/src/ingest_data.py] *)

Module IngestData.

(** [merge_with_old(new_df)]; the state is the file [data/bandwidths.csv],
    [None] when it does not exist. *)
Definition merge_with_old (new_df : DataFrame) : M (option DataFrame) unit :=
  fun file =>
    match file with
    | None => (Some new_df, inr tt)
    | Some old_df =>
        let end_timestamp_old := ts_max (rows old_df) in
        let start_timestamp_new := ts_min (rows new_df) in
        let diff := diff_minutes start_timestamp_new end_timestamp_old in
        (_ <- assert_ (le_num diff 10) "Data gap exists" ;;
         let new_df' := loc_after new_df end_timestamp_old in
         let df := concat old_df new_df' in
         fun _ => (Some df, inr tt)) file
    end.

End IngestData.

(** ** Executable checks *)

Example hour_seven : hour (7 * 3600000 + 86400000 * 19723) = 7.
Proof. reflexivity. Qed.

Example slice_no_markers : py_slice "garbage" (py_find "(" "garbage" + 1)
                             (py_find ")" "garbage") = "garbag"%string.
Proof. reflexivity. Qed.

Example slice_markers : py_slice "cb({x})" (py_find "(" "cb({x})" + 1)
                          (py_find ")" "cb({x})") = "{x}"%string.
Proof. reflexivity. Qed.

Example strip_label : strip (str_replace "requests" "" "Pending requests ")
                      = "Pending"%string.
Proof. reflexivity. Qed.

(** [adjacent timestamps strictly increase] *)
Fixpoint increasing (l : list Z) : bool :=
  match l with
  | x :: ((y :: _) as l') => (x <? y) && increasing l'
  | _ => true
  end.

(** ** Unfolding the merge *)

Lemma merge_bandwidth_eq (st : store) (old new : DataFrame) :
  bandwidth_csv st = Some old ->
  merge_bandwidth new st =
  if ts_gt (ts_max (rows new)) (ts_max (rows old)) then
    if le_num (diff_minutes (ts_min (rows new)) (ts_max (rows old))) 10 then
      (mk_store (Some (concat old (loc_after new (ts_max (rows old)))))
                (support_csv st), inr tt)
    else (st, inl (AssertionError "Data gap exists"))
  else (st, inr tt).
Proof.
  intros H. unfold merge_bandwidth, bind, read_csv. simpl. rewrite H.
  destruct (ts_gt _ _); [|reflexivity].
  unfold assert_. destruct (le_num _ _); reflexivity.
Qed.

Lemma merge_support_eq (st : store) (old new : DataFrame) :
  support_csv st = Some old ->
  merge_support new st =
  if ts_gt (ts_max (rows new)) (ts_max (rows old)) &&
     match ts_max (rows new) with Some e => hour e =? 7 | None => false end then
    if le_num (diff_days (ts_min (rows new)) (ts_max (rows old))) 1 then
      (mk_store (bandwidth_csv st)
                (Some (concat old (loc_after new (ts_max (rows old))))), inr tt)
    else (st, inl (AssertionError "Data gap exists"))
  else (st, inr tt).
Proof.
  intros H. unfold merge_support, bind, read_csv. simpl. rewrite H.
  destruct (_ && _); [|reflexivity].
  unfold assert_. destruct (le_num _ _); reflexivity.
Qed.

Lemma merge_bandwidth_missing (st : store) (new : DataFrame) :
  bandwidth_csv st = None -> merge_bandwidth new st = (st, inl FileNotFoundError).
Proof. intros H. unfold merge_bandwidth, bind, read_csv. simpl. now rewrite H. Qed.

Lemma merge_support_missing (st : store) (new : DataFrame) :
  support_csv st = None -> merge_support new st = (st, inl FileNotFoundError).
Proof. intros H. unfold merge_support, bind, read_csv. simpl. now rewrite H. Qed.

Lemma merge_bandwidth_support_frame (st : store) (new : DataFrame) :
  support_csv (fst (merge_bandwidth new st)) = support_csv st.
Proof.
  destruct (bandwidth_csv st) as [old|] eqn:H.
  - rewrite (merge_bandwidth_eq st old new H).
    destruct (ts_gt _ _); [destruct (le_num _ _)|]; reflexivity.
  - now rewrite merge_bandwidth_missing.
Qed.

(** [floor (d / 60000) <= 10] is [d < 11 minutes]. *)
Lemma minutes_le_10 (d : Z) : d / 60000 <= 10 <-> d < 660000.
Proof.
  pose proof (Z.div_mod d 60000 ltac:(lia)).
  pose proof (Z.mod_pos_bound d 60000 ltac:(lia)). lia.
Qed.

Lemma days_le_1 (d : Z) : d / 86400000 <= 1 <-> d < 172800000.
Proof.
  pose proof (Z.div_mod d 86400000 ltac:(lia)).
  pose proof (Z.mod_pos_bound d 86400000 ltac:(lia)). lia.
Qed.

(** ** Claims *)

(** C1 (amended). For the bandwidth feed, when the new batch ends after the
    old record, the merge raises the "Data gap exists" assertion exactly
    when the gap between the new batch's first timestamp and the old
    record's last one, floored to whole minutes, exceeds 10, i.e. when it
    is at least 11 minutes; on whole-minute gaps this is exactly "more than
    10 minutes", and a gap of exactly 10 minutes never raises. *)
Theorem bandwidth_gap_error_iff (st : store) (old new : DataFrame) (e s n : Z) :
  bandwidth_csv st = Some old ->
  ts_max (rows old) = Some e ->
  ts_min (rows new) = Some s ->
  ts_max (rows new) = Some n ->
  e < n ->
  (snd (merge_bandwidth new st) = inl (AssertionError "Data gap exists")
     <-> 660000 <= s - e) /\
  ((s - e) mod 60000 = 0 ->
   (snd (merge_bandwidth new st) = inl (AssertionError "Data gap exists")
     <-> 600000 < s - e)).
Proof.
  intros Hf He Hs Hn Hlt.
  rewrite (merge_bandwidth_eq st old new Hf), He, Hs, Hn. simpl.
  replace (e <? n) with true by (symmetry; apply Z.ltb_lt; lia).
  pose proof (minutes_le_10 (s - e)) as Hiff.
  split.
  - destruct (Z.leb_spec ((s - e) / 60000) 10) as [Hb|Hb]; simpl;
      split; intros H; try discriminate; try reflexivity; lia.
  - intros Hmod.
    pose proof (Z.div_mod (s - e) 60000 ltac:(lia)) as Hdm.
    rewrite Hmod, Z.add_0_r in Hdm.
    destruct (Z.leb_spec ((s - e) / 60000) 10) as [Hb|Hb]; simpl;
      split; intros H; try discriminate; try reflexivity; lia.
Qed.

(** Concrete inputs of C1. *)
Definition one_region (t v : Z) : row := mk_row t [("Europe"%string, v)].

Definition st_old_at_0 : store :=
  mk_store (Some (mk_df ["Europe"%string] [one_region 0 5])) None.

Definition batch_from (start : Z) : DataFrame :=
  mk_df ["Europe"%string] [one_region start 6; one_region (start + 600000) 7].

Lemma bandwidth_gap_error_iff_witness :
  snd (merge_bandwidth (batch_from 600000) st_old_at_0)
    <> inl (AssertionError "Data gap exists").
Proof.
  intros H.
  apply (proj1 (bandwidth_gap_error_iff st_old_at_0
                  (mk_df ["Europe"%string] [one_region 0 5])
                  (batch_from 600000) 0 600000 1200000
                  eq_refl eq_refl eq_refl eq_refl ltac:(lia))) in H.
  lia.
Defined.

(** C1 fails as stated: a batch starting 10 minutes 30 seconds after the
    old record's end is more than 10 minutes late, yet it is merged. *)
Lemma bandwidth_gap_10m30s_not_raised :
  630000 - 0 > 600000 /\
  merge_bandwidth (batch_from 630000) st_old_at_0 =
  (mk_store (Some (mk_df ["Europe"%string]
                     [one_region 0 5; one_region 630000 6;
                      one_region 1230000 7])) None, inr tt).
Proof. split; [lia | reflexivity]. Qed.

(** A bandwidth batch newer than the record and less than 11 minutes late
    is appended. *)
Lemma merge_bandwidth_write (st : store) (old new : DataFrame) (e s n : Z) :
  bandwidth_csv st = Some old ->
  ts_max (rows old) = Some e ->
  ts_min (rows new) = Some s ->
  ts_max (rows new) = Some n ->
  e < n -> s - e < 660000 ->
  merge_bandwidth new st =
  (mk_store (Some (concat old (loc_after new (Some e)))) (support_csv st), inr tt).
Proof.
  intros Hf He Hs Hn Hlt Hgap.
  rewrite (merge_bandwidth_eq st old new Hf), He, Hs, Hn. simpl.
  replace (e <? n) with true by (symmetry; apply Z.ltb_lt; lia).
  replace ((s - e) / 60000 <=? 10) with true
    by (symmetry; apply Z.leb_le, minutes_le_10; lia).
  reflexivity.
Qed.

(** C2. For both feeds, a batch whose last timestamp is not after the last
    timestamp of the existing record leaves the store unchanged and raises
    nothing. *)
Theorem stale_batch_is_noop (st : store) (old new : DataFrame) (o n : Z) :
  ts_max (rows old) = Some o ->
  ts_max (rows new) = Some n ->
  n <= o ->
  (bandwidth_csv st = Some old -> merge_bandwidth new st = (st, inr tt)) /\
  (support_csv st = Some old -> merge_support new st = (st, inr tt)).
Proof.
  intros Ho Hn Hle. split; intros Hf.
  - rewrite (merge_bandwidth_eq st old new Hf), Ho, Hn. simpl.
    replace (o <? n) with false by (symmetry; apply Z.ltb_ge; lia).
    reflexivity.
  - rewrite (merge_support_eq st old new Hf), Ho, Hn. simpl.
    replace (o <? n) with false by (symmetry; apply Z.ltb_ge; lia).
    reflexivity.
Qed.

Lemma stale_batch_is_noop_witness :
  merge_bandwidth (batch_from (-600000)) st_old_at_0 = (st_old_at_0, inr tt).
Proof.
  apply (proj1 (stale_batch_is_noop st_old_at_0
                  (mk_df ["Europe"%string] [one_region 0 5])
                  (batch_from (-600000)) 0 0 eq_refl eq_refl ltac:(lia))).
  reflexivity.
Defined.

(** C3 (amended). A successful bandwidth merge writes exactly the old
    record followed by the new batch's rows later than its end; nothing
    re-indexes the result onto a 10-minute grid, so no missing-value rows
    are inserted and adjacent rows keep whatever spacing they had. *)
Theorem bandwidth_merge_is_plain_append (st : store) (old new : DataFrame)
    (e s n : Z) :
  bandwidth_csv st = Some old ->
  ts_max (rows old) = Some e ->
  ts_min (rows new) = Some s ->
  ts_max (rows new) = Some n ->
  e < n -> s - e < 660000 ->
  merge_bandwidth new st =
  (mk_store (Some (mk_df (columns (concat old new))
                         (rows old ++ filter (fun r => e <? ts r) (rows new))))
            (support_csv st), inr tt).
Proof.
  intros Hf He Hs Hn Hlt Hgap.
  rewrite (merge_bandwidth_write st old new e s n Hf He Hs Hn Hlt Hgap).
  reflexivity.
Qed.

Definition st_two_slots : store :=
  mk_store (Some (mk_df ["Europe"%string] [one_region 0 5; one_region 600000 6]))
           None.

(** The 00:30 slot is missing from the new batch. *)
Definition batch_with_hole : DataFrame :=
  mk_df ["Europe"%string] [one_region 1200000 7; one_region 2400000 9].

Lemma bandwidth_merge_is_plain_append_witness :
  merge_bandwidth batch_with_hole st_two_slots =
  (mk_store (Some (mk_df ["Europe"%string]
                     [one_region 0 5; one_region 600000 6;
                      one_region 1200000 7; one_region 2400000 9])) None,
   inr tt).
Proof.
  rewrite (bandwidth_merge_is_plain_append st_two_slots
             (mk_df ["Europe"%string] [one_region 0 5; one_region 600000 6])
             batch_with_hole 600000 1200000 2400000
             eq_refl eq_refl eq_refl eq_refl ltac:(lia) ltac:(lia)).
  reflexivity.
Defined.

(** C3 fails as stated: after a successful merge the record has rows at
    00:20 and 00:40, 20 minutes apart, with no row for the 00:30 slot. *)
Lemma bandwidth_merge_not_resampled :
  snd (merge_bandwidth batch_with_hole st_two_slots) = inr tt /\
  option_map (fun df => map ts (rows df))
    (bandwidth_csv (fst (merge_bandwidth batch_with_hole st_two_slots)))
  = Some [0; 600000; 1200000; 2400000] /\
  2400000 - 1200000 <> 600000.
Proof. split; [reflexivity | split; [reflexivity | lia]]. Qed.

Section ProbeMax.

Variable fetch : string -> string.
Variable loads : string -> option (list series).

Definition parses_nonempty (v : string) : Prop :=
  exists d m, parse_bandwidth_response loads (fetch v) = inr d /\
              ts_max (rows d) = Some m.

Lemma probe_loop_max (candidates : list string) :
  forall d m,
  ts_max (rows d) = Some m ->
  (forall v, In v candidates -> parses_nonempty v) ->
  exists df mx,
    probe_loop fetch loads candidates (Some d) (Some (Some m)) = inr (Some df) /\
    ts_max (rows df) = Some mx /\ m <= mx /\
    (df = d \/ exists v, In v candidates /\
                         parse_bandwidth_response loads (fetch v) = inr df) /\
    (forall v d' m', In v candidates ->
       parse_bandwidth_response loads (fetch v) = inr d' ->
       ts_max (rows d') = Some m' -> m' <= mx).
Proof.
  induction candidates as [|v rest IH]; intros d m Hm Hok.
  - exists d, m. repeat split; auto; [lia | intros v d' m' []].
  - destruct (Hok v (or_introl eq_refl)) as [dv [mv [Hpv Hmv]]].
    assert (Hok' : forall w, In w rest -> parses_nonempty w)
      by (intros w Hw; apply Hok; now right).
    simpl. rewrite Hpv, Hmv. simpl.
    destruct (Z.ltb_spec m mv) as [Hlt|Hge].
    + destruct (IH dv mv Hmv Hok') as [df [mx [Hl [Hdf [Hle [Hor Hb]]]]]].
      exists df, mx. split; [exact Hl|]. split; [exact Hdf|]. split; [lia|].
      split.
      * right. destruct Hor as [->|[w [Hw Hpw]]]; [exists v; split; auto|].
        exists w. split; [now right | exact Hpw].
      * intros w d' m' [<-|Hw] Hpw Hmw; [|exact (Hb w d' m' Hw Hpw Hmw)].
        rewrite Hpv in Hpw. injection Hpw as <-. rewrite Hmv in Hmw.
        injection Hmw as <-. lia.
    + destruct (IH d m Hm Hok') as [df [mx [Hl [Hdf [Hle [Hor Hb]]]]]].
      exists df, mx. split; [exact Hl|]. split; [exact Hdf|]. split; [lia|].
      split.
      * destruct Hor as [->|[w [Hw Hpw]]]; [now left|].
        right. exists w. split; [now right | exact Hpw].
      * intros w d' m' [<-|Hw] Hpw Hmw; [|exact (Hb w d' m' Hw Hpw Hmw)].
        rewrite Hpv in Hpw. injection Hpw as <-. rewrite Hmv in Hmw.
        injection Hmw as <-. lia.
Qed.

End ProbeMax.

(** C4 (amended). No step looks at the category set. Over any list of
    candidates that all parse to non-empty frames, the probe returns the
    candidate whose final timestamp is strictly the latest, wherever it
    stands in the list and whatever its columns; and the merge appends any
    such batch that is newer and less than 11 minutes late, whatever its
    columns. *)
Theorem categories_never_checked
    (fetch : string -> string) (loads : string -> option (list series))
    (candidates : list string) (v : string) (dv : DataFrame) (mv : Z)
    (st : store) (old : DataFrame) (e s : Z) :
  In v candidates ->
  parse_bandwidth_response loads (fetch v) = inr dv ->
  ts_max (rows dv) = Some mv ->
  (forall w, In w candidates -> parses_nonempty fetch loads w) ->
  (forall w d m, In w candidates ->
     parse_bandwidth_response loads (fetch w) = inr d ->
     ts_max (rows d) = Some m -> d = dv \/ m < mv) ->
  get_newest_bandwidth_data fetch loads candidates = inr dv /\
  (bandwidth_csv st = Some old ->
   ts_max (rows old) = Some e ->
   ts_min (rows dv) = Some s ->
   e < mv -> s - e < 660000 ->
   bandwidth_csv (fst (merge_bandwidth dv st))
   = Some (concat old (loc_after dv (Some e)))).
Proof.
  intros Hv Hpv Hmv Hok Hmax. split.
  - destruct candidates as [|v0 rest]; [destruct Hv|].
    destruct (Hok v0 (or_introl eq_refl)) as [d0 [m0 [Hp0 Hm0]]].
    assert (Hok' : forall w, In w rest -> parses_nonempty fetch loads w)
      by (intros w Hw; apply Hok; now right).
    destruct (probe_loop_max fetch loads rest d0 m0 Hm0 Hok')
      as [df [mx [Hl [Hdf [Hle [Hor Hb]]]]]].
    assert (Hget : get_newest_bandwidth_data fetch loads (v0 :: rest) = inr df).
    { unfold get_newest_bandwidth_data. simpl. rewrite Hp0, Hm0. now rewrite Hl. }
    rewrite Hget. f_equal.
    assert (Hbound : mv <= mx).
    { destruct Hv as [<-|Hv].
      - rewrite Hp0 in Hpv. injection Hpv as <-. rewrite Hm0 in Hmv.
        injection Hmv as <-. exact Hle.
      - exact (Hb v dv mv Hv Hpv Hmv). }
    assert (Hw : exists w, In w (v0 :: rest) /\
                           parse_bandwidth_response loads (fetch w) = inr df).
    { destruct Hor as [->|[w [Hw Hpw]]].
      - exists v0. split; [now left | exact Hp0].
      - exists w. split; [now right | exact Hpw]. }
    destruct Hw as [w [Hw Hpw]].
    destruct (Hmax w df mx Hw Hpw Hdf) as [Heq|Hlt]; [exact Heq | lia].
  - intros Hf He Hs Heb Hgap.
    now rewrite (merge_bandwidth_write st old dv e s mv Hf He Hs Hmv Heb Hgap).
Qed.

(** Concrete inputs of C4: the code names no region, so generic labels. *)
Definition nine_regions : list string :=
  ["Region1"; "Region2"; "Region3"; "Region4"; "Region5";
   "Region6"; "Region7"; "Region8"; "Region9"]%string.

Definition eight_regions : list string := removelast nine_regions.

Definition demo_loads (payload : string) : option (list series) :=
  if String.eqb payload "full" then
    Some (map (fun c => mk_series c [(600000, 1)]) nine_regions)
  else if String.eqb payload "partial" then
    Some (map (fun c => mk_series c [(600000, 1); (1200000, 2)]) eight_regions)
  else None.

Definition demo_fetch (v : string) : string :=
  if String.eqb v "v1" then "cb(full)"%string else "cb(partial)"%string.

Definition old_nine : DataFrame :=
  mk_df nine_regions [mk_row 0 (map (fun c => (c, 0)) nine_regions)].

Definition st_nine : store := mk_store (Some old_nine) None.

(** Four candidates, as the code probes: the second has only eight regions
    and the latest data, the others all nine regions. *)
Definition four_candidates : list string := ["v1"; "v2"; "v3"; "v4"]%string.

Definition four_fetch (v : string) : string :=
  if String.eqb v "v2" then "cb(partial)"%string else "cb(full)"%string.

Definition partial_frame : DataFrame :=
  Eval vm_compute in
  match parse_bandwidth_response demo_loads "cb(partial)" with
  | inr d => d
  | inl _ => mk_df [] []
  end.

Lemma categories_never_checked_witness :
  get_newest_bandwidth_data four_fetch demo_loads four_candidates = inr partial_frame /\
  bandwidth_csv (fst (merge_bandwidth partial_frame st_nine))
  = Some (concat old_nine (loc_after partial_frame (Some 0))).
Proof.
  destruct (categories_never_checked four_fetch demo_loads four_candidates "v2"
              partial_frame 1200000 st_nine old_nine 0 600000)
    as [Hget Hmerge].
  - right. now left.
  - reflexivity.
  - reflexivity.
  - intros w [<-|[<-|[<-|[<-|[]]]]]; do 2 eexists; split; reflexivity.
  - intros w d m Hw Hp Hm.
    destruct Hw as [<-|[<-|[<-|[<-|[]]]]]; vm_compute in Hp; injection Hp as <-;
      vm_compute in Hm; injection Hm as <-;
      [right; lia | left; reflexivity | right; lia | right; lia].
  - split; [exact Hget|]. apply Hmerge; reflexivity || lia.
Defined.

(** C4 fails as stated: of four candidates, the probe returns the second,
    which has only eight of the nine regions, over the later candidates
    that have all nine; and the merge appends its rows. *)
Lemma incomplete_batch_merged :
  match parse_bandwidth_response demo_loads (four_fetch "v4") with
  | inr d => columns d = nine_regions
  | inl _ => False
  end /\
  match get_newest_bandwidth_data four_fetch demo_loads four_candidates with
  | inr df =>
      columns df = eight_regions /\ eight_regions <> nine_regions /\
      snd (merge_bandwidth df st_nine) = inr tt /\
      option_map (fun d => map ts (rows d))
        (bandwidth_csv (fst (merge_bandwidth df st_nine)))
      = Some [0; 600000; 1200000]
  | inl _ => False
  end.
Proof.
  vm_compute. split; [reflexivity|].
  split; [reflexivity | split; [discriminate | split; reflexivity]].
Qed.

(** C5. The support record is written only when the new batch's last
    timestamp falls at 07:xx UTC; when it falls at any other hour the merge
    leaves the store unchanged and raises nothing, however new it is. *)
Theorem support_anchor_gate (st : store) (old new : DataFrame) :
  (support_csv st = Some old ->
   forall n, ts_max (rows new) = Some n -> hour n <> 7 ->
   merge_support new st = (st, inr tt)) /\
  (support_csv (fst (merge_support new st)) <> support_csv st ->
   exists n, ts_max (rows new) = Some n /\ hour n = 7).
Proof.
  split.
  - intros Hf n Hn Hh. rewrite (merge_support_eq st old new Hf), Hn.
    replace (hour n =? 7) with false by (symmetry; apply Z.eqb_neq; exact Hh).
    now rewrite andb_false_r.
  - intros Hch. destruct (support_csv st) as [o|] eqn:Hf.
    + rewrite (merge_support_eq st o new Hf) in Hch.
      destruct (ts_max (rows new)) as [n|] eqn:Hn.
      * destruct (hour n =? 7) eqn:Hh.
        -- exists n. split; [reflexivity | now apply Z.eqb_eq].
        -- rewrite andb_false_r in Hch. simpl in Hch. congruence.
      * simpl in Hch. congruence.
    + rewrite (merge_support_missing st new Hf) in Hch. simpl in Hch. congruence.
Qed.

(** Support inputs: 07:00 on day 0 and on day 1. *)
Definition day0_7h : Z := 7 * 3600000.
Definition day1_7h : Z := day0_7h + 86400000.

Definition old_support : DataFrame :=
  mk_df ["Pending"%string] [mk_row day0_7h [("Pending"%string, 40)]].

Definition new_support_at (t : Z) : DataFrame :=
  mk_df ["Pending"%string] [mk_row t [("Pending"%string, 41)]].

Definition st_support : store := mk_store None (Some old_support).

Lemma support_anchor_gate_witness :
  merge_support (new_support_at (day1_7h + 3600000)) st_support
  = (st_support, inr tt).
Proof.
  apply (proj1 (support_anchor_gate st_support old_support
                  (new_support_at (day1_7h + 3600000))) eq_refl
           (day1_7h + 3600000) eq_refl).
  vm_compute. discriminate.
Defined.

(** C6 (amended). Feeds are not isolated: when the bandwidth merge raises,
    the run stops with that exception before the support feed is merged,
    so the support record is left as it was (a support failure, in turn,
    comes after the bandwidth record has been written). The exception
    reaches the caller. *)
Theorem bandwidth_failure_stops_run
    (fetch : string -> string) (loads : string -> option (list series))
    (support_response : option (list series)) (candidates : list string)
    (st st' : store) (bw sp : DataFrame) (e : exn) :
  get_newest_bandwidth_data fetch loads candidates = inr bw ->
  get_newest_support_data support_response = inr sp ->
  merge_bandwidth bw st = (st', inl e) ->
  run fetch loads support_response candidates st = (st', inl e) /\
  support_csv st' = support_csv st.
Proof.
  intros Hb Hs Hm. unfold run, bind, lift. rewrite Hb, Hs.
  unfold merge_with_old, bind. rewrite Hm. split; [reflexivity|].
  pose proof (merge_bandwidth_support_frame st bw) as Hfr.
  now rewrite Hm in Hfr.
Qed.

Definition demo_support : option (list series) :=
  Some [mk_series "Pending requests" [(day0_7h, 40); (day1_7h, 41)]].

(** The bandwidth record ends an hour before the probed batch starts. *)
Definition st_gap : store :=
  mk_store (Some (mk_df ["Europe"%string] [one_region (-3600000) 5]))
           (Some old_support).

Lemma bandwidth_failure_stops_run_witness :
  support_csv (fst (run demo_fetch demo_loads demo_support ["v1"; "v2"]%string
                        st_gap)) = support_csv st_gap.
Proof.
  exact (proj2 (bandwidth_failure_stops_run demo_fetch demo_loads demo_support
                  ["v1"; "v2"]%string st_gap st_gap _ _
                  (AssertionError "Data gap exists")
                  eq_refl eq_refl eq_refl)).
Defined.

(** C6 fails as stated: the bandwidth gap stops the run, and the support
    batch, which the support merge alone would append, is not merged. *)
Lemma bandwidth_gap_blocks_support :
  run demo_fetch demo_loads demo_support ["v1"; "v2"]%string st_gap
  = (st_gap, inl (AssertionError "Data gap exists")) /\
  match get_newest_support_data demo_support with
  | inr sp => support_csv (fst (merge_support sp st_gap)) <> support_csv st_gap
  | inl _ => False
  end.
Proof. split; [reflexivity | vm_compute; congruence]. Qed.

(** An exception while parsing any candidate ends the probe loop. *)
Lemma probe_loop_error (fetch : string -> string)
    (loads : string -> option (list series)) (v : string) (ex : exn) :
  parse_bandwidth_response loads (fetch v) = inl ex ->
  forall candidates, In v candidates ->
  forall newest_df most_recent,
  exists e, probe_loop fetch loads candidates newest_df most_recent = inl e.
Proof.
  intros Hv candidates. induction candidates as [|w rest IH]; intros Hin nd mr.
  - destruct Hin.
  - simpl. destruct Hin as [<-|Hin].
    + rewrite Hv. now exists ex.
    + destruct (parse_bandwidth_response loads (fetch w)) as [e|df].
      * now exists e.
      * destruct (match mr with None => true | Some m => _ end);
          apply IH; exact Hin.
Qed.

(** C7 (amended). A candidate whose payload cannot be decoded is not
    skipped: the exception leaves the probe, so the whole run raises before
    any file is written, whatever the other candidates return. *)
Theorem undecodable_candidate_aborts_run
    (fetch : string -> string) (loads : string -> option (list series))
    (support_response : option (list series)) (candidates : list string)
    (v : string) (st : store) :
  In v candidates ->
  parse_bandwidth_response loads (fetch v) = inl JSONDecodeError ->
  (exists e, get_newest_bandwidth_data fetch loads candidates = inl e) /\
  (exists e, run fetch loads support_response candidates st = (st, inl e)).
Proof.
  intros Hin Hv.
  destruct (probe_loop_error fetch loads v JSONDecodeError Hv candidates Hin
              None None) as [e He].
  split; exists e.
  - unfold get_newest_bandwidth_data. now rewrite He.
  - unfold run, bind, lift, get_newest_bandwidth_data. now rewrite He.
Qed.

(** The first identifier returns a body without the callback markers. *)
Definition garbled_fetch (v : string) : string :=
  if String.eqb v "v1" then "garbage"%string else "cb(full)"%string.

Lemma undecodable_candidate_aborts_run_witness :
  exists e, get_newest_bandwidth_data garbled_fetch demo_loads
              ["v1"; "v2"]%string = inl e.
Proof.
  exact (proj1 (undecodable_candidate_aborts_run garbled_fetch demo_loads
                  demo_support ["v1"; "v2"]%string "v1" st_gap
                  (or_introl eq_refl) eq_refl)).
Defined.

(** C7 fails as stated: the first body has neither "(" nor ")", its
    payload does not decode, and the probe raises although the second
    candidate decodes. *)
Lemma missing_markers_abort_probe :
  py_find "(" (garbled_fetch "v1") = -1 /\
  py_find ")" (garbled_fetch "v1") = -1 /\
  parse_bandwidth_response demo_loads (garbled_fetch "v1") = inl JSONDecodeError /\
  (exists df, parse_bandwidth_response demo_loads (garbled_fetch "v2") = inr df) /\
  get_newest_bandwidth_data garbled_fetch demo_loads ["v1"; "v2"]%string
  = inl JSONDecodeError.
Proof.
  split; [reflexivity|]. split; [reflexivity|]. split; [reflexivity|].
  split; [eexists; reflexivity | reflexivity].
Qed.

(** C8 (code defect). Without a bandwidth history file the pipeline's merge
    raises [FileNotFoundError] at [pd.read_csv] and writes nothing, whereas
    the script's [merge_with_old] writes the batch as the first record. *)
Theorem first_write_raises_in_pipeline (st : store) (new_bandwidth_df
    new_support_df : DataFrame) :
  bandwidth_csv st = None ->
  merge_with_old new_bandwidth_df new_support_df st = (st, inl FileNotFoundError) /\
  IngestData.merge_with_old new_bandwidth_df None
  = (Some new_bandwidth_df, inr tt).
Proof.
  intros H. split; [|reflexivity].
  unfold merge_with_old, bind. now rewrite (merge_bandwidth_missing st _ H).
Qed.

Lemma first_write_raises_in_pipeline_witness :
  merge_with_old (batch_from 0) old_support (mk_store None None)
  = (mk_store None None, inl FileNotFoundError).
Proof.
  exact (proj1 (first_write_raises_in_pipeline (mk_store None None)
                  (batch_from 0) old_support eq_refl)).
Defined.

(** ** Order of the written record *)

Lemma increasing_correct (l : list Z) :
  increasing l = true <-> StronglySorted Z.lt l.
Proof.
  split.
  - intros H. apply Sorted_StronglySorted; [intros x y z; lia|].
    induction l as [|x l IH]; [constructor|].
    destruct l as [|y l]; [repeat constructor|].
    simpl in H. apply andb_true_iff in H as [Hxy Hl].
    constructor; [now apply IH|]. constructor. now apply Z.ltb_lt.
  - induction l as [|x l IH]; intros H; [reflexivity|].
    apply StronglySorted_inv in H as [Hl Hx].
    destruct l as [|y l]; [reflexivity|].
    simpl. apply andb_true_iff. split.
    + apply Z.ltb_lt. now inversion Hx.
    + now apply IH.
Qed.

Lemma StronglySorted_app (l1 l2 : list Z) :
  StronglySorted Z.lt l1 -> StronglySorted Z.lt l2 ->
  (forall x y, In x l1 -> In y l2 -> x < y) ->
  StronglySorted Z.lt (l1 ++ l2).
Proof.
  induction l1 as [|x l1 IH]; intros H1 H2 Hxy; [exact H2|].
  apply StronglySorted_inv in H1 as [H1 Hx]. simpl. constructor.
  - apply IH; [exact H1 | exact H2 | intros a b Ha Hb; apply Hxy; simpl; auto].
  - apply Forall_app. split; [exact Hx|].
    apply Forall_forall. intros y Hy. apply Hxy; simpl; auto.
Qed.

Lemma StronglySorted_filter (p : Z -> bool) (l : list Z) :
  StronglySorted Z.lt l -> StronglySorted Z.lt (filter p l).
Proof.
  induction l as [|x l IH]; intros H; [constructor|].
  apply StronglySorted_inv in H as [Hl Hx]. simpl.
  destruct (p x); [|now apply IH].
  constructor; [now apply IH|].
  apply Forall_forall. intros y Hy. apply filter_In in Hy as [Hy _].
  rewrite Forall_forall in Hx. now apply Hx.
Qed.

Lemma map_ts_filter (q : Z -> bool) (rs : list row) :
  map ts (filter (fun r => q (ts r)) rs) = filter q (map ts rs).
Proof.
  induction rs as [|r rs IH]; [reflexivity|]. simpl.
  destruct (q (ts r)); simpl; now rewrite IH.
Qed.

Lemma ts_max_upper (rs : list row) (m : Z) :
  ts_max rs = Some m -> forall r, In r rs -> ts r <= m.
Proof.
  revert m. induction rs as [|r0 rs IH]; intros m H r Hin; [destruct Hin|].
  simpl in H. destruct (ts_max rs) as [m'|] eqn:Hm.
  - injection H as <-. destruct Hin as [<-|Hin]; [lia|].
    specialize (IH m' eq_refl r Hin). lia.
  - injection H as <-. destruct Hin as [<-|Hin]; [lia|].
    destruct rs as [|r1 rs]; [destruct Hin|].
    simpl in Hm. destruct (ts_max rs); discriminate.
Qed.

Lemma ts_max_nonempty (rs : list row) :
  rs <> [] -> exists m, ts_max rs = Some m.
Proof.
  destruct rs as [|r rs]; [congruence|]. intros _. simpl.
  destruct (ts_max rs); eexists; reflexivity.
Qed.

Lemma ts_min_lower (rs : list row) (m : Z) :
  ts_min rs = Some m -> forall r, In r rs -> m <= ts r.
Proof.
  revert m. induction rs as [|r0 rs IH]; intros m H r Hin; [destruct Hin|].
  simpl in H. destruct (ts_min rs) as [m'|] eqn:Hm.
  - injection H as <-. destruct Hin as [<-|Hin]; [lia|].
    specialize (IH m' eq_refl r Hin). lia.
  - injection H as <-. destruct Hin as [<-|Hin]; [lia|].
    destruct rs as [|r1 rs]; [destruct Hin|].
    simpl in Hm. destruct (ts_min rs); discriminate.
Qed.

(** Appending the rows after the maximum keeps strict order. *)
Lemma concat_after_max_increasing (old new : DataFrame) :
  increasing (map ts (rows old)) = true ->
  increasing (map ts (rows new)) = true ->
  increasing (map ts (rows (concat old (loc_after new (ts_max (rows old))))))
  = true.
Proof.
  intros Ho Hn. apply increasing_correct. apply increasing_correct in Ho, Hn.
  simpl. rewrite map_app.
  destruct (ts_max (rows old)) as [m|] eqn:Hm.
  - rewrite (map_ts_filter (fun t => m <? t)).
    apply StronglySorted_app; [exact Ho | now apply StronglySorted_filter|].
    intros x y Hx Hy. apply in_map_iff in Hx as [r [<- Hr]].
    apply filter_In in Hy as [_ Hy]. apply Z.ltb_lt in Hy.
    pose proof (ts_max_upper _ _ Hm r Hr). lia.
  - assert (filter (fun _ : row => false) (rows new) = [])
      as -> by (clear Hn; induction (rows new) as [|r l IH]; [reflexivity | exact IH]).
    now rewrite app_nil_r.
Qed.

Lemma last_in {A} (l : list A) (d : A) : l <> [] -> In (last l d) l.
Proof.
  intros Hne. rewrite (@app_removelast_last A l d Hne) at 2.
  apply in_or_app. right. now left.
Qed.

Lemma ts_max_app_bound (old new : DataFrame) (d r : row) :
  rows old <> [] ->
  In r (rows (loc_after new (ts_max (rows old)))) ->
  ts (last (rows old) d) < ts r.
Proof.
  intros Hne Hr. destruct (ts_max_nonempty _ Hne) as [m Hm].
  simpl in Hr. rewrite Hm in Hr. apply filter_In in Hr as [_ Hr].
  simpl in Hr. apply Z.ltb_lt in Hr.
  pose proof (ts_max_upper _ _ Hm (last (rows old) d)
                (last_in (rows old) d Hne)). lia.
Qed.

(** The written record is the old one followed by rows strictly after the
    old record's last row. *)
Definition extends_record (old : DataFrame) (written : option DataFrame) : Prop :=
  exists df app, written = Some df /\ rows df = rows old ++ app /\
  forall d r, In r app -> ts (last (rows old) d) < ts r.

Lemma extends_concat (old new : DataFrame) :
  rows old <> [] ->
  extends_record old (Some (concat old (loc_after new (ts_max (rows old))))).
Proof.
  intros Hne. eexists _, _. split; [reflexivity | split; [reflexivity|]].
  intros d r Hr. now apply (ts_max_app_bound old new).
Qed.

Lemma extends_refl (old : DataFrame) : extends_record old (Some old).
Proof.
  exists old, []. split; [reflexivity|]. split; [now rewrite app_nil_r|].
  intros d r [].
Qed.

Lemma script_merge_eq (old new : DataFrame) :
  IngestData.merge_with_old new (Some old) =
  if le_num (diff_minutes (ts_min (rows new)) (ts_max (rows old))) 10 then
    (Some (concat old (loc_after new (ts_max (rows old)))), inr tt)
  else (Some old, inl (AssertionError "Data gap exists")).
Proof.
  unfold IngestData.merge_with_old, bind, assert_.
  destruct (le_num _ _); reflexivity.
Qed.

(** C9. For both feeds of the pipeline and for the script, a merge that
    succeeds over a non-empty record writes (or leaves) a record made of
    every old row, unchanged and in order, followed by rows whose
    timestamps are strictly after the old record's last one. *)
Theorem merge_keeps_old_rows_as_prefix (st st' : store) (old new : DataFrame)
    (file' : option DataFrame) :
  rows old <> [] ->
  (bandwidth_csv st = Some old -> merge_bandwidth new st = (st', inr tt) ->
   extends_record old (bandwidth_csv st')) /\
  (support_csv st = Some old -> merge_support new st = (st', inr tt) ->
   extends_record old (support_csv st')) /\
  (IngestData.merge_with_old new (Some old) = (file', inr tt) ->
   extends_record old file').
Proof.
  intros Hne. split; [|split].
  - intros Hf Hm. rewrite (merge_bandwidth_eq st old new Hf) in Hm.
    destruct (ts_gt _ _); [destruct (le_num _ _)|]; injection Hm as <-;
      try discriminate; simpl.
    + now apply extends_concat.
    + rewrite Hf. apply extends_refl.
  - intros Hf Hm. rewrite (merge_support_eq st old new Hf) in Hm.
    destruct (_ && _); [destruct (le_num _ _)|]; injection Hm as <-;
      try discriminate; simpl.
    + now apply extends_concat.
    + rewrite Hf. apply extends_refl.
  - intros Hm. rewrite script_merge_eq in Hm.
    destruct (le_num _ _); injection Hm as <-; try discriminate.
    now apply extends_concat.
Qed.

Lemma merge_keeps_old_rows_as_prefix_witness :
  extends_record (mk_df ["Europe"%string] [one_region 0 5; one_region 600000 6])
    (bandwidth_csv (fst (merge_bandwidth batch_with_hole st_two_slots))).
Proof.
  apply (proj1 (merge_keeps_old_rows_as_prefix st_two_slots
                  (fst (merge_bandwidth batch_with_hole st_two_slots))
                  (mk_df ["Europe"%string] [one_region 0 5; one_region 600000 6])
                  batch_with_hole None ltac:(discriminate)) eq_refl).
  reflexivity.
Defined.

(** C10. When the old record and the new batch have strictly increasing
    timestamps, a successful merge of either feed writes (or leaves) a
    record with strictly increasing timestamps; and a batch starting at or
    before the old record's end never trips the gap assertion, its
    overlapping rows being dropped. *)
Theorem merge_keeps_timestamps_increasing (st st' : store) (old new : DataFrame) :
  increasing (map ts (rows old)) = true ->
  increasing (map ts (rows new)) = true ->
  (bandwidth_csv st = Some old -> merge_bandwidth new st = (st', inr tt) ->
   exists df, bandwidth_csv st' = Some df /\ increasing (map ts (rows df)) = true) /\
  (support_csv st = Some old -> merge_support new st = (st', inr tt) ->
   exists df, support_csv st' = Some df /\ increasing (map ts (rows df)) = true) /\
  (forall s e, ts_min (rows new) = Some s -> ts_max (rows old) = Some e -> s <= e ->
   (bandwidth_csv st = Some old -> snd (merge_bandwidth new st) = inr tt) /\
   (support_csv st = Some old -> snd (merge_support new st) = inr tt)).
Proof.
  intros Ho Hn. split; [|split].
  - intros Hf Hm. rewrite (merge_bandwidth_eq st old new Hf) in Hm.
    destruct (ts_gt _ _); [destruct (le_num _ _)|]; injection Hm as <-;
      try discriminate; simpl.
    + eexists. split; [reflexivity|]. now apply concat_after_max_increasing.
    + exists old. now rewrite Hf.
  - intros Hf Hm. rewrite (merge_support_eq st old new Hf) in Hm.
    destruct (_ && _); [destruct (le_num _ _)|]; injection Hm as <-;
      try discriminate; simpl.
    + eexists. split; [reflexivity|]. now apply concat_after_max_increasing.
    + exists old. now rewrite Hf.
  - intros s e Hs He Hse. split; intros Hf.
    + rewrite (merge_bandwidth_eq st old new Hf), Hs, He. simpl.
      replace ((s - e) / 60000 <=? 10) with true
        by (symmetry; apply Z.leb_le, minutes_le_10; lia).
      destruct (ts_gt _ _); reflexivity.
    + rewrite (merge_support_eq st old new Hf), Hs, He. simpl.
      replace ((s - e) / 86400000 <=? 1) with true
        by (symmetry; apply Z.leb_le, days_le_1; lia).
      destruct (_ && _); reflexivity.
Qed.

(** The old record ends at 00:10, the batch covers 00:00 to 00:20. *)
Definition overlapping_batch : DataFrame :=
  mk_df ["Europe"%string]
    [one_region 0 5; one_region 600000 6; one_region 1200000 7].

Lemma merge_keeps_timestamps_increasing_witness :
  snd (merge_bandwidth overlapping_batch st_two_slots) = inr tt.
Proof.
  apply (proj2 (proj2 (merge_keeps_timestamps_increasing st_two_slots
                  st_two_slots
                  (mk_df ["Europe"%string] [one_region 0 5; one_region 600000 6])
                  overlapping_batch eq_refl eq_refl))
           0 600000 eq_refl eq_refl ltac:(lia)).
  reflexivity.
Defined.

Example overlap_rows_dropped :
  option_map (fun df => map ts (rows df))
    (bandwidth_csv (fst (merge_bandwidth overlapping_batch st_two_slots)))
  = Some [0; 600000; 1200000].
Proof. reflexivity. Qed.

(** ** Further properties of the merge *)

Lemma ts_max_in (rs : list row) (m : Z) :
  ts_max rs = Some m -> exists r, In r rs /\ ts r = m.
Proof.
  revert m. induction rs as [|r0 rs IH]; intros m H; [discriminate|].
  simpl in H. destruct (ts_max rs) as [m'|] eqn:Hm.
  - injection H as <-. destruct (Z.max_spec (ts r0) m') as [[_ ->]|[_ ->]].
    + destruct (IH m' eq_refl) as [r [Hr Hrt]]. exists r. simpl. auto.
    + exists r0. simpl. auto.
  - injection H as <-. exists r0. simpl. auto.
Qed.

(** After appending the rows of a batch, the record reaches its end. *)
Lemma concat_reaches_batch_end (old new : DataFrame) (e n : timestamp) :
  ts_max (rows new) = Some n -> e < n ->
  exists m, ts_max (rows (concat old (loc_after new (Some e)))) = Some m /\
            n <= m.
Proof.
  intros Hn Hen. destruct (ts_max_in _ _ Hn) as [r [Hr Hrt]].
  assert (Hin : In r (rows (concat old (loc_after new (Some e))))).
  { simpl. apply in_or_app. right. apply filter_In. split; [exact Hr|].
    simpl. apply Z.ltb_lt. lia. }
  destruct (ts_max_nonempty (rows (concat old (loc_after new (Some e)))))
    as [m Hm]; [intros Hnil; rewrite Hnil in Hin; destruct Hin|].
  exists m. split; [exact Hm|]. rewrite <- Hrt. exact (ts_max_upper _ _ Hm r Hin).
Qed.

Lemma merge_support_bandwidth_frame (st : store) (new : DataFrame) :
  bandwidth_csv (fst (merge_support new st)) = bandwidth_csv st.
Proof.
  destruct (support_csv st) as [old|] eqn:H.
  - rewrite (merge_support_eq st old new H).
    destruct (_ && _); [destruct (le_num _ _)|]; reflexivity.
  - now rewrite merge_support_missing.
Qed.

(** Merging again the batch that a merge just handled changes nothing,
    for either feed. *)
Theorem merge_twice_is_merge_once (st st' : store) (old new : DataFrame) :
  (bandwidth_csv st = Some old -> merge_bandwidth new st = (st', inr tt) ->
   merge_bandwidth new st' = (st', inr tt)) /\
  (support_csv st = Some old -> merge_support new st = (st', inr tt) ->
   merge_support new st' = (st', inr tt)).
Proof.
  split; intros Hf Hm.
  - pose proof Hm as Hm0. rewrite (merge_bandwidth_eq st old new Hf) in Hm.
    destruct (ts_gt (ts_max (rows new)) (ts_max (rows old))) eqn:Hgt;
      [destruct (le_num _ _)|]; injection Hm as <-; try discriminate.
    + destruct (ts_max (rows new)) as [n|] eqn:Hn; [|discriminate].
      destruct (ts_max (rows old)) as [e|] eqn:He; [|discriminate].
      simpl in Hgt. apply Z.ltb_lt in Hgt.
      destruct (concat_reaches_batch_end old new e n Hn Hgt) as [m [Hm Hnm]].
      erewrite (merge_bandwidth_eq _ (concat old (loc_after new (Some e))) new);
        [|reflexivity]. rewrite Hm, Hn. simpl.
      replace (m <? n) with false by (symmetry; apply Z.ltb_ge; lia).
      reflexivity.
    + rewrite (merge_bandwidth_eq st old new Hf), Hgt. reflexivity.
  - pose proof Hm as Hm0. rewrite (merge_support_eq st old new Hf) in Hm.
    destruct (ts_gt (ts_max (rows new)) (ts_max (rows old)) &&
              match ts_max (rows new) with
              | Some e => hour e =? 7 | None => false end) eqn:Hc;
      [destruct (le_num _ _)|]; injection Hm as <-; try discriminate.
    + apply andb_true_iff in Hc as [Hgt _].
      destruct (ts_max (rows new)) as [n|] eqn:Hn; [|discriminate].
      destruct (ts_max (rows old)) as [e|] eqn:He; [|discriminate].
      simpl in Hgt. apply Z.ltb_lt in Hgt.
      destruct (concat_reaches_batch_end old new e n Hn Hgt) as [m [Hm Hnm]].
      erewrite (merge_support_eq _ (concat old (loc_after new (Some e))) new);
        [|reflexivity]. rewrite Hm, Hn. simpl.
      replace (m <? n) with false by (symmetry; apply Z.ltb_ge; lia).
      reflexivity.
    + rewrite (merge_support_eq st old new Hf), Hc. reflexivity.
Qed.

Lemma merge_twice_is_merge_once_witness :
  merge_bandwidth batch_with_hole (fst (merge_bandwidth batch_with_hole st_two_slots))
  = (fst (merge_bandwidth batch_with_hole st_two_slots), inr tt).
Proof.
  apply (proj1 (merge_twice_is_merge_once st_two_slots
                  (fst (merge_bandwidth batch_with_hole st_two_slots))
                  (mk_df ["Europe"%string] [one_region 0 5; one_region 600000 6])
                  batch_with_hole) eq_refl).
  reflexivity.
Defined.

(** For the support feed, once the batch is newer and ends at hour 7, the
    gap assertion fires exactly when the batch starts two days or more
    after the record's end ([(start - end).days] is floored). *)
Theorem support_gap_error_iff (st : store) (old new : DataFrame) (e s n : Z) :
  support_csv st = Some old ->
  ts_max (rows old) = Some e ->
  ts_min (rows new) = Some s ->
  ts_max (rows new) = Some n ->
  e < n -> hour n = 7 ->
  (snd (merge_support new st) = inl (AssertionError "Data gap exists")
   <-> 172800000 <= s - e).
Proof.
  intros Hf He Hs Hn Hlt Hh.
  rewrite (merge_support_eq st old new Hf), He, Hs, Hn. simpl.
  replace (e <? n) with true by (symmetry; apply Z.ltb_lt; lia).
  rewrite Hh. simpl.
  pose proof (days_le_1 (s - e)) as Hiff.
  destruct (Z.leb_spec ((s - e) / 86400000) 1) as [Hb|Hb]; simpl;
    split; intros H; try discriminate; try reflexivity; lia.
Qed.

Lemma support_gap_error_iff_witness :
  snd (merge_support (new_support_at (day1_7h + 86400000))
         (mk_store None (Some old_support)))
  = inl (AssertionError "Data gap exists").
Proof.
  apply (proj2 (support_gap_error_iff (mk_store None (Some old_support))
                  old_support (new_support_at (day1_7h + 86400000))
                  day0_7h (day1_7h + 86400000) (day1_7h + 86400000)
                  eq_refl eq_refl eq_refl eq_refl ltac:(unfold day1_7h, day0_7h; lia)
                  eq_refl)).
  unfold day1_7h, day0_7h. lia.
Defined.

(** When the bandwidth half succeeds and the support half raises, the run's
    merge step raises that error but keeps the bandwidth file it wrote. *)
Theorem support_failure_keeps_bandwidth_write (st st1 st2 : store)
    (nb ns : DataFrame) (e : exn) :
  merge_bandwidth nb st = (st1, inr tt) ->
  merge_support ns st1 = (st2, inl e) ->
  merge_with_old nb ns st = (st2, inl e) /\
  bandwidth_csv st2 = bandwidth_csv st1.
Proof.
  intros Hb Hs. unfold merge_with_old, bind. rewrite Hb, Hs. split; [reflexivity|].
  pose proof (merge_support_bandwidth_frame st1 ns) as H. now rewrite Hs in H.
Qed.

(** The bandwidth record gains the 00:20 and 00:40 rows, the support batch
    starts two days after its record. *)
Definition st_both : store :=
  mk_store (bandwidth_csv st_two_slots) (Some old_support).

Lemma support_failure_keeps_bandwidth_write_witness :
  bandwidth_csv (fst (merge_with_old batch_with_hole
                        (new_support_at (day1_7h + 86400000)) st_both))
  = bandwidth_csv (fst (merge_bandwidth batch_with_hole st_both)).
Proof.
  exact (proj2 (support_failure_keeps_bandwidth_write st_both _ _
                  batch_with_hole (new_support_at (day1_7h + 86400000))
                  (AssertionError "Data gap exists") eq_refl eq_refl)).
Defined.

(** On a batch newer than the record, the script's [merge_with_old] and the
    pipeline's bandwidth merge write the same record and raise the same
    error. *)
Theorem script_agrees_with_pipeline_on_newer_batch (st : store)
    (old new : DataFrame) :
  bandwidth_csv st = Some old ->
  ts_gt (ts_max (rows new)) (ts_max (rows old)) = true ->
  IngestData.merge_with_old new (Some old)
  = (bandwidth_csv (fst (merge_bandwidth new st)), snd (merge_bandwidth new st)).
Proof.
  intros Hf Hgt. rewrite script_merge_eq, (merge_bandwidth_eq st old new Hf), Hgt.
  destruct (le_num _ _); simpl; [reflexivity|]. now rewrite Hf.
Qed.

Lemma script_agrees_with_pipeline_on_newer_batch_witness :
  IngestData.merge_with_old (batch_from 630000)
    (Some (mk_df ["Europe"%string] [one_region 0 5]))
  = (bandwidth_csv (fst (merge_bandwidth (batch_from 630000) st_old_at_0)),
     snd (merge_bandwidth (batch_from 630000) st_old_at_0)).
Proof.
  exact (script_agrees_with_pipeline_on_newer_batch st_old_at_0
           (mk_df ["Europe"%string] [one_region 0 5]) (batch_from 630000)
           eq_refl eq_refl).
Defined.

(** The script has no "newer" guard: a stale batch is still written back,
    with the old rows unchanged and the batch's unseen columns added. *)
Theorem script_stale_batch_rewrites_old_rows (old new : DataFrame) (e n : Z) :
  ts_max (rows old) = Some e ->
  ts_max (rows new) = Some n ->
  n <= e ->
  exists df, IngestData.merge_with_old new (Some old) = (Some df, inr tt) /\
             rows df = rows old /\
             columns df = columns (concat old new).
Proof.
  intros He Hn Hle. rewrite script_merge_eq, He.
  destruct (ts_min (rows new)) as [s|] eqn:Hs.
  2:{ destruct (rows new); [discriminate|]. simpl in Hs.
      destruct (ts_min l); discriminate. }
  assert (Hsn : s <= n).
  { destruct (ts_max_in _ _ Hn) as [r [Hr _]].
    pose proof (ts_min_lower _ _ Hs r Hr). pose proof (ts_max_upper _ _ Hn r Hr).
    lia. }
  simpl. replace ((s - e) / 60000 <=? 10) with true
    by (symmetry; apply Z.leb_le, minutes_le_10; lia).
  eexists. split; [reflexivity|]. split; [|reflexivity].
  simpl. rewrite <- (app_nil_r (rows old)) at 2. f_equal.
  pose proof (ts_max_upper _ _ Hn) as Hup. clear Hs Hn.
  induction (rows new) as [|r rs IH]; [reflexivity|]. simpl.
  replace (e <? ts r) with false
    by (symmetry; apply Z.ltb_ge; specialize (Hup r (or_introl eq_refl)); lia).
  apply IH. intros r' Hr'. apply Hup. now right.
Qed.

Lemma script_stale_batch_rewrites_old_rows_witness :
  exists df, IngestData.merge_with_old (batch_from (-600000)) (Some (mk_df [] [one_region 0 5]))
             = (Some df, inr tt) /\
             rows df = [one_region 0 5] /\
             columns df = ["Europe"%string].
Proof.
  exact (script_stale_batch_rewrites_old_rows (mk_df [] [one_region 0 5])
           (batch_from (-600000)) 0 0 eq_refl eq_refl ltac:(lia)).
Defined.

(** ** Further properties of the probe *)

Lemma parse_bandwidth_error (loads : string -> option (list series))
    (text : string) (e : exn) :
  parse_bandwidth_response loads text = inl e ->
  e = JSONDecodeError \/ e = TypeError_reduce_empty.
Proof.
  unfold parse_bandwidth_response.
  destruct (loads _) as [sl|]; [|intros H; injection H as <-; now left].
  destruct sl as [|s sl]; simpl; intros H; [injection H as <-; now right|].
  discriminate.
Qed.

(** Once a frame is kept the loop keeps one, and only parse errors escape. *)
Lemma probe_loop_kept (fetch : string -> string)
    (loads : string -> option (list series)) (candidates : list string) :
  forall d mr,
  (exists e, probe_loop fetch loads candidates (Some d) mr = inl e /\
             (e = JSONDecodeError \/ e = TypeError_reduce_empty)) \/
  (exists d', probe_loop fetch loads candidates (Some d) mr = inr (Some d')).
Proof.
  induction candidates as [|v rest IH]; intros d mr; simpl; [right; eauto|].
  destruct (parse_bandwidth_response loads (fetch v)) as [e|df] eqn:Hp.
  - left. exists e. split; [reflexivity|]. exact (parse_bandwidth_error _ _ _ Hp).
  - destruct (match mr with None => true | Some m => _ end); apply IH.
Qed.

(** The assertion "No data found" fires exactly when there is no
    candidate identifier. *)
Theorem no_data_found_iff_no_candidates (fetch : string -> string)
    (loads : string -> option (list series)) (candidates : list string) :
  get_newest_bandwidth_data fetch loads candidates
  = inl (AssertionError "No data found") <-> candidates = [].
Proof.
  split; [|intros ->; reflexivity].
  destruct candidates as [|v rest]; [reflexivity|].
  unfold get_newest_bandwidth_data. simpl.
  destruct (parse_bandwidth_response loads (fetch v)) as [e|df] eqn:Hp.
  - intros H. injection H as ->.
    destruct (parse_bandwidth_error _ _ _ Hp); discriminate.
  - destruct (probe_loop_kept fetch loads rest df (Some (ts_max (rows df))))
      as [[e [He [-> | ->]]] | [d' Hd]]; rewrite ?He, ?Hd; discriminate.
Qed.


(** When every candidate parses to a non-empty frame, the probe returns the
    frame of one of the candidates, and no candidate's final timestamp is
    later than the returned one's. *)
Theorem probe_returns_latest_frame (fetch : string -> string)
    (loads : string -> option (list series)) (candidates : list string) :
  candidates <> [] ->
  (forall v, In v candidates -> parses_nonempty fetch loads v) ->
  exists v df m,
    In v candidates /\ parse_bandwidth_response loads (fetch v) = inr df /\
    get_newest_bandwidth_data fetch loads candidates = inr df /\
    ts_max (rows df) = Some m /\
    (forall v' d' m', In v' candidates ->
       parse_bandwidth_response loads (fetch v') = inr d' ->
       ts_max (rows d') = Some m' -> m' <= m).
Proof.
  intros Hne Hok. destruct candidates as [|v rest]; [congruence|].
  destruct (Hok v (or_introl eq_refl)) as [dv [mv [Hpv Hmv]]].
  assert (Hok' : forall w, In w rest -> parses_nonempty fetch loads w)
    by (intros w Hw; apply Hok; now right).
  destruct (probe_loop_max fetch loads rest dv mv Hmv Hok')
    as [df [mx [Hl [Hdf [Hle [Hor Hb]]]]]].
  assert (Hget : get_newest_bandwidth_data fetch loads (v :: rest) = inr df).
  { unfold get_newest_bandwidth_data. simpl. rewrite Hpv, Hmv. now rewrite Hl. }
  destruct Hor as [->|[w [Hw Hpw]]].
  - exists v, dv, mx. repeat split; auto; [now left|].
    intros w d' m' [<-|Hw] Hpw Hmw; [|exact (Hb w d' m' Hw Hpw Hmw)].
    rewrite Hpv in Hpw. injection Hpw as <-. congruence.
  - exists w, df, mx. repeat split; auto; [now right|].
    intros u d' m' [<-|Hu] Hpu Hmu; [|exact (Hb u d' m' Hu Hpu Hmu)].
    rewrite Hpv in Hpu. injection Hpu as <-. rewrite Hmv in Hmu.
    injection Hmu as <-. exact Hle.
Qed.

Lemma probe_returns_latest_frame_witness :
  exists v df m,
    In v ["v1"; "v2"]%string /\
    parse_bandwidth_response demo_loads (demo_fetch v) = inr df /\
    get_newest_bandwidth_data demo_fetch demo_loads ["v1"; "v2"]%string = inr df /\
    ts_max (rows df) = Some m /\
    (forall v' d' m', In v' ["v1"; "v2"]%string ->
       parse_bandwidth_response demo_loads (demo_fetch v') = inr d' ->
       ts_max (rows d') = Some m' -> m' <= m).
Proof.
  apply probe_returns_latest_frame; [discriminate|].
  intros w [<-|[<-|[]]]; do 2 eexists; split; reflexivity.
Defined.

(** ** Further properties of parsing *)

Fixpoint has_char (c : ascii) (s : string) : bool :=
  match s with
  | EmptyString => false
  | String a s' => Ascii.eqb a c || has_char c s'
  end.

Lemma find_from_app (c : ascii) (a b : string) (i : Z) :
  has_char c a = false ->
  find_from c (a ++ b) i = find_from c b (i + Z.of_nat (String.length a)).
Proof.
  revert i. induction a as [|x a IH]; intros i H; simpl; [f_equal; lia|].
  simpl in H. apply orb_false_iff in H as [Hx Ha]. rewrite Hx.
  rewrite (IH (i + 1) Ha). f_equal. lia.
Qed.

Lemma length_app_string (a b : string) :
  String.length (a ++ b) = (String.length a + String.length b)%nat.
Proof. induction a as [|x a IH]; simpl; auto. Qed.

Lemma substring_app_skip (a b : string) (k m : nat) :
  substring (String.length a + k) m (a ++ b) = substring k m b.
Proof. induction a as [|x a IH]; simpl; auto. Qed.

Lemma substring_prefix (p b : string) :
  substring 0 (String.length p) (p ++ b) = p.
Proof. induction p as [|x p IH]; simpl; [now destruct b | now rewrite IH]. Qed.

(** The payload handed to [loads] is the text between the first "(" and the
    first ")": for a body [pre(p)post] where [pre] has no parenthesis and
    [p] no ")", it is exactly [p], so the parse only depends on [loads p]. *)
Theorem payload_between_markers (pre p post : string)
    (loads loads' : string -> option (list series)) :
  has_char "(" pre = false -> has_char ")" pre = false ->
  has_char ")" p = false ->
  let text := (pre ++ "(" ++ p ++ ")" ++ post)%string in
  py_slice text (py_find "(" text + 1) (py_find ")" text) = p /\
  (loads p = loads' p ->
   parse_bandwidth_response loads text = parse_bandwidth_response loads' text).
Proof.
  intros Ho Hc Hp text.
  assert (Hfo : py_find "(" text = Z.of_nat (String.length pre)).
  { unfold py_find, text. rewrite (find_from_app _ _ _ 0 Ho). reflexivity. }
  assert (Hfc : py_find ")" text =
                Z.of_nat (String.length pre) + 1 + Z.of_nat (String.length p)).
  { unfold py_find, text. rewrite (find_from_app _ _ _ 0 Hc). simpl.
    rewrite (find_from_app _ _ _ _ Hp). simpl. lia. }
  assert (Hlen : String.length text =
                 (String.length pre + 1 + String.length p + 1 +
                  String.length post)%nat).
  { unfold text. rewrite length_app_string. simpl.
    rewrite length_app_string. simpl. lia. }
  assert (Hslice : py_slice text (py_find "(" text + 1) (py_find ")" text) = p).
  { unfold py_slice. rewrite Hfo, Hfc, Hlen. unfold slice_index.
    replace (Z.of_nat (String.length pre) + 1 <? 0) with false
      by (symmetry; apply Z.ltb_ge; lia).
    replace (Z.of_nat (String.length pre) + 1 + Z.of_nat (String.length p) <? 0)
      with false by (symmetry; apply Z.ltb_ge; lia).
    rewrite !Z.min_l by lia.
    destruct (Z.ltb_spec (Z.of_nat (String.length pre) + 1)
               (Z.of_nat (String.length pre) + 1 + Z.of_nat (String.length p)))
      as [Hlt|Hge].
    - replace (Z.to_nat (Z.of_nat (String.length pre) + 1))
        with (String.length pre + 1)%nat by lia.
      replace (Z.to_nat (Z.of_nat (String.length pre) + 1 +
                         Z.of_nat (String.length p) -
                         (Z.of_nat (String.length pre) + 1)))
        with (String.length p) by lia.
      unfold text. rewrite substring_app_skip. simpl. apply substring_prefix.
    - destruct p; [reflexivity | simpl in Hge; lia]. }
  split; [exact Hslice|].
  intros Hl. unfold parse_bandwidth_response.
  fold text. rewrite Hslice, Hl. reflexivity.
Qed.

Lemma payload_between_markers_witness :
  py_slice "cb({x})" (py_find "(" "cb({x})" + 1) (py_find ")" "cb({x})")
  = "{x}"%string.
Proof.
  exact (proj1 (payload_between_markers "cb" "{x}" "" demo_loads demo_loads
                  eq_refl eq_refl eq_refl)).
Defined.

(** A timestamp carried by some row of a frame. *)
Definition has_ts (df : DataFrame) (t : timestamp) : Prop :=
  exists r, In r (rows df) /\ ts r = t.

Lemma flat_map_has_ts (f : row -> list row) (xs : list row) (t : timestamp) :
  (forall r r', In r' (f r) -> ts r' = ts r) ->
  (forall r, f r <> []) ->
  (exists r', In r' (flat_map f xs) /\ ts r' = t) <->
  (exists r, In r xs /\ ts r = t).
Proof.
  intros Hts Hne. split.
  - intros [r' [Hr' Ht]]. apply in_flat_map in Hr' as [r [Hr Hin]].
    exists r. split; [exact Hr|]. rewrite <- Ht. symmetry. now apply Hts.
  - intros [r [Hr Ht]]. destruct (f r) as [|r' rs] eqn:Hf; [now destruct (Hne r)|].
    exists r'. split.
    + apply in_flat_map. exists r. rewrite Hf. split; [exact Hr | now left].
    + rewrite <- Ht. apply Hts. rewrite Hf. now left.
Qed.

(** The outer join loses no timestamp and invents none. *)
Lemma merge_outer_has_ts (x y : DataFrame) (t : timestamp) :
  has_ts (merge_outer x y) t <-> has_ts x t \/ has_ts y t.
Proof.
  unfold has_ts, merge_outer. simpl.
  set (f := fun r => match filter (fun m => ts r =? ts m) (rows y) with
                     | [] => [r]
                     | ms => map (fun m => mk_row (ts r) (vals r ++ vals m)) ms
                     end).
  assert (Hts : forall r r', In r' (f r) -> ts r' = ts r).
  { intros r r' Hin. unfold f in Hin.
    destruct (filter _ (rows y)) as [|m ms].
    - destruct Hin as [<-|[]]. reflexivity.
    - apply in_map_iff in Hin as [m' [<- _]]. reflexivity. }
  assert (Hne : forall r, f r <> []).
  { intros r. unfold f. destruct (filter _ (rows y)); discriminate. }
  pose proof (flat_map_has_ts f (rows x) t Hts Hne) as Hfm.
  split.
  - intros [r' [Hin Ht]]. apply in_app_or in Hin as [Hin|Hin].
    + left. apply Hfm. eauto.
    + right. apply filter_In in Hin as [Hin _]. eauto.
  - intros [Hx|[m [Hm Ht]]].
    + apply Hfm in Hx as [r' [Hr' Ht]]. exists r'. split; [apply in_or_app; now left|].
      exact Ht.
    + destruct (existsb (fun r => ts r =? ts m) (rows x)) eqn:Hex.
      * apply existsb_exists in Hex as [r [Hr Heq]]. apply Z.eqb_eq in Heq.
        destruct (proj2 Hfm (ex_intro _ r (conj Hr (eq_trans Heq Ht))))
          as [r' [Hr' Ht']].
        exists r'. split; [apply in_or_app; now left | exact Ht'].
      * exists m. split; [|exact Ht]. apply in_or_app. right.
        apply filter_In. split; [exact Hm|]. now rewrite Hex.
Qed.

Lemma fold_merge_has_ts (ds : list DataFrame) :
  forall d t, has_ts (fold_left merge_outer ds d) t <->
              has_ts d t \/ exists d', In d' ds /\ has_ts d' t.
Proof.
  induction ds as [|d1 ds IH]; intros d t; simpl.
  - split; [now left | intros [H|[d' [[] _]]]; exact H].
  - rewrite IH, merge_outer_has_ts. split.
    + intros [[H|H]|[d' [Hd' H]]]; [now left | right; eauto | right; eauto].
    + intros [H|[d' [[<-|Hd'] H]]]; [now left; left | now left; right | right; eauto].
Qed.

Lemma fold_merge_columns (ds : list DataFrame) :
  forall d, columns (fold_left merge_outer ds d) =
            columns d ++ flat_map columns ds.
Proof.
  induction ds as [|d1 ds IH]; intros d; simpl; [now rewrite app_nil_r|].
  rewrite IH. simpl. now rewrite app_assoc.
Qed.

Lemma in_insert_row (r x : row) (l : list row) :
  In x (insert_row r l) <-> x = r \/ In x l.
Proof.
  induction l as [|r' l IH]; simpl; [intuition congruence|].
  destruct (ts r <? ts r'); simpl; [intuition congruence|].
  rewrite IH. intuition congruence.
Qed.

Lemma sort_values_has_ts (df : DataFrame) (t : timestamp) :
  has_ts (sort_values df) t <-> has_ts df t.
Proof.
  unfold has_ts, sort_values. simpl.
  assert (Hin : forall x, In x (fold_right insert_row [] (rows df)) <-> In x (rows df)).
  { induction (rows df) as [|r rs IH]; intros x; simpl; [tauto|].
    rewrite in_insert_row, IH. split; intros [H|H]; auto. }
  split; intros [r [Hr Ht]]; exists r; split; auto; apply Hin; exact Hr.
Qed.

Definition ts_le (a b : row) : Prop := ts a <= ts b.

Lemma insert_row_hdrel (a r : row) (l : list row) :
  HdRel ts_le a l -> ts a <= ts r -> HdRel ts_le a (insert_row r l).
Proof.
  destruct l as [|b l]; simpl; intros H Har; [now constructor|].
  destruct (ts r <? ts b); constructor; [exact Har|]. now inversion H.
Qed.

Lemma insert_row_sorted (r : row) (l : list row) :
  Sorted ts_le l -> Sorted ts_le (insert_row r l).
Proof.
  induction l as [|a l IH]; intros H; simpl; [repeat constructor|].
  destruct (Z.ltb_spec (ts r) (ts a)) as [Hlt|Hge].
  - constructor; [exact H|]. constructor. unfold ts_le. lia.
  - apply Sorted_inv in H as [Hl Ha]. constructor; [now apply IH|].
    apply insert_row_hdrel; [exact Ha | exact Hge].
Qed.

Lemma sort_values_sorted (df : DataFrame) : Sorted ts_le (rows (sort_values df)).
Proof.
  unfold sort_values. simpl. induction (rows df) as [|r rs IH]; simpl;
    [constructor | now apply insert_row_sorted].
Qed.

Lemma series_frame_has_ts (c : string) (s : series) (t : timestamp) :
  has_ts (series_frame c s) t <-> In t (map fst (data s)).
Proof.
  unfold has_ts, series_frame. simpl. rewrite in_map_iff. split.
  - intros [r [Hr <-]]. apply in_map_iff in Hr as [p [<- Hp]]. now exists p.
  - intros [p [<- Hp]]. exists (mk_row (fst p) [(c, snd p)]). split; [|reflexivity].
    apply in_map_iff. now exists p.
Qed.

Lemma reduce_series_frames (g : series -> string) (s0 : series) (sl : list series) :
  exists d, reduce_merge (map (fun s => series_frame (g s) s) (s0 :: sl)) = inr d /\
    columns d = map g (s0 :: sl) /\
    forall t, has_ts d t <-> exists s, In s (s0 :: sl) /\ In t (map fst (data s)).
Proof.
  eexists. split; [reflexivity|]. split.
  - rewrite fold_merge_columns. simpl. f_equal.
    induction sl as [|s sl IH]; simpl; [reflexivity | now rewrite IH].
  - intros t. rewrite fold_merge_has_ts, series_frame_has_ts. split.
    + intros [H|[d' [Hd' H]]]; [exists s0; split; [now left | exact H]|].
      apply in_map_iff in Hd' as [s [<- Hs]]. apply series_frame_has_ts in H.
      exists s. split; [now right | exact H].
    + intros [s [[<-|Hs] H]]; [now left|]. right.
      exists (series_frame (g s) s). split; [apply in_map_iff; eauto|].
      now apply series_frame_has_ts.
Qed.

(** The shape of a parsed response, for both feeds: with no series the
    [reduce] raises [TypeError]; otherwise, when the column names are
    distinct, none is "Timestamp" and every series has data points, the
    frame has one column per series, named by its label (for support, with
    "requests" removed and the result stripped), in the order of the
    series; its rows are sorted by timestamp; and its timestamps are
    exactly those of the series' data points. *)
Theorem parsed_frame_shape (loads : string -> option (list series))
    (text : string) (sl : list series) :
  (loads (py_slice text (py_find "(" text + 1) (py_find ")" text)) = Some sl ->
   (sl = [] -> parse_bandwidth_response loads text = inl TypeError_reduce_empty) /\
   (sl <> [] -> NoDup (map label sl) -> ~ In "Timestamp"%string (map label sl) ->
    Forall (fun s => data s <> []) sl ->
    exists df, parse_bandwidth_response loads text = inr df /\
      columns df = map label sl /\ Sorted ts_le (rows df) /\
      forall t, has_ts df t <-> exists s, In s sl /\ In t (map fst (data s)))) /\
  (sl = [] -> get_newest_support_data (Some sl) = inl TypeError_reduce_empty) /\
  (sl <> [] ->
   NoDup (map (fun s => strip (str_replace "requests" "" (label s))) sl) ->
   ~ In "Timestamp"%string (map (fun s => strip (str_replace "requests" "" (label s))) sl) ->
   Forall (fun s => data s <> []) sl ->
   exists df, get_newest_support_data (Some sl) = inr df /\
     columns df = map (fun s => strip (str_replace "requests" "" (label s))) sl /\
     Sorted ts_le (rows df) /\
     forall t, has_ts df t <-> exists s, In s sl /\ In t (map fst (data s))).
Proof.
  split; [intros Hl; split|split].
  - intros ->. unfold parse_bandwidth_response. now rewrite Hl.
  - intros Hne _ _ _. destruct sl as [|s0 sl]; [congruence|].
    destruct (reduce_series_frames label s0 sl) as [d [Hd [Hc Ht]]].
    exists (sort_values d). unfold parse_bandwidth_response. rewrite Hl, Hd.
    split; [reflexivity|]. split; [exact Hc|]. split; [apply sort_values_sorted|].
    intros t. rewrite sort_values_has_ts. apply Ht.
  - intros ->. reflexivity.
  - intros Hne _ _ _. destruct sl as [|s0 sl]; [congruence|].
    destruct (reduce_series_frames
                (fun s => strip (str_replace "requests" "" (label s))) s0 sl)
      as [d [Hd [Hc Ht]]].
    exists (sort_values d). unfold get_newest_support_data. rewrite Hd.
    split; [reflexivity|]. split; [exact Hc|]. split; [apply sort_values_sorted|].
    intros t. rewrite sort_values_has_ts. apply Ht.
Qed.

Lemma parsed_frame_shape_witness :
  exists df, parse_bandwidth_response demo_loads "cb(full)" = inr df /\
    columns df = map label (map (fun c => mk_series c [(600000, 1)]) nine_regions) /\
    Sorted ts_le (rows df) /\
    forall t, has_ts df t <->
      exists s, In s (map (fun c => mk_series c [(600000, 1)]) nine_regions) /\
                In t (map fst (data s)).
Proof.
  exact (proj2 (proj1 (parsed_frame_shape demo_loads "cb(full)"
                  (map (fun c => mk_series c [(600000, 1)]) nine_regions))
                  eq_refl) ltac:(discriminate)
           ltac:(vm_compute; repeat constructor; simpl; intuition discriminate)
           ltac:(vm_compute; intuition discriminate)
           ltac:(vm_compute; repeat (apply Forall_cons; [discriminate|]);
                 apply Forall_nil)).
Defined.

(** ** The dashboard [src/app/streamlit_app.py] *)

Module StreamlitApp.

(** [pd.Timedelta(days=365)] *)
Definition one_year : Z := 365 * 86400000.

(** [row[c]]: [None] for a missing value. *)
Fixpoint lookup (c : string) (vs : list (string * Z)) : option Z :=
  match vs with
  | [] => None
  | (k, v) :: vs' => if String.eqb k c then Some v else lookup c vs'
  end.

(** [data.iloc[:, 1:].sum(axis=1)] for one row: the category columns
    (every column after ["Timestamp"]), missing values skipped. *)
Definition row_sum (cols : list string) (r : row) : Z :=
  fold_right (fun c acc => match lookup c (vals r) with
                           | Some v => v + acc
                           | None => acc
                           end) 0 cols.

Definition drop_key (k : string) (vs : list (string * Z)) : list (string * Z) :=
  filter (fun p => negb (String.eqb (fst p) k)) vs.

(** [data["Total"] = data.iloc[:, 1:].sum(axis=1)] *)
Definition add_total (data : DataFrame) : DataFrame :=
  mk_df (if existsb (String.eqb "Total") (columns data) then columns data
         else columns data ++ ["Total"%string])
        (map (fun r => mk_row (ts r) (("Total"%string, row_sum (columns data) r)
                                      :: drop_key "Total" (vals r)))
             (rows data)).

(** [load_data]: the file's rows of the last year, plus the total. *)
Definition load_data (data : DataFrame) : DataFrame :=
  let data := loc_after data (option_map (fun m => m - one_year)
                                          (ts_max (rows data))) in
  add_total data.

(** [latest_data = data["Timestamp"].max()] of both plotting functions,
    shown in the "Latest data" caption. *)
Definition latest_data (data : DataFrame) : option timestamp := ts_max (rows data).

(** [bandwidths_df.drop(columns="Total")] *)
Definition drop_total (data : DataFrame) : DataFrame :=
  mk_df (filter (fun c => negb (String.eqb c "Total")) (columns data))
        (map (fun r => mk_row (ts r) (drop_key "Total" (vals r))) (rows data)).

Record melted := mk_melted { m_ts : timestamp; region : string;
                             bandwidth : option Z }.

(** [data.melt(id_vars=["Timestamp"], value_vars=..., var_name="Region",
    value_name="Bandwidth")]: one entry per value column and row, column
    by column. *)
Definition melt (data : DataFrame) (value_vars : list string) : list melted :=
  flat_map (fun c => map (fun r => mk_melted (ts r) c (lookup c (vals r))) (rows data))
           value_vars.

(** The long table of [plot_bandwidth_usage_stacked_area]:
    [value_vars=data.columns.to_list()[1:]]. *)
Definition stacked_area_data (data : DataFrame) : list melted :=
  melt data (columns data).

(** The height of the stacked area at timestamp [t]: the sum of the
    entries at [t], a missing value drawing nothing. *)
Definition stacked_height (ms : list melted) (t : timestamp) : Z :=
  fold_right (fun m acc => if m_ts m =? t then
                             match bandwidth m with Some v => v + acc | None => acc end
                           else acc) 0 ms.

End StreamlitApp.

Import StreamlitApp.

Lemma ts_max_same_ts (f : row -> row) (l : list row) :
  (forall r, ts (f r) = ts r) -> ts_max (map f l) = ts_max l.
Proof.
  intros Hf. induction l as [|r l IH]; simpl; [reflexivity|].
  rewrite IH, Hf. reflexivity.
Qed.

(** A sub-list that keeps a row at the maximum has the same maximum. *)
Lemma ts_max_sublist (l l' : list row) (m : timestamp) :
  ts_max l = Some m -> (forall r, In r l' -> In r l) ->
  (exists r, In r l' /\ ts r = m) -> ts_max l' = Some m.
Proof.
  intros Hm Hsub [r [Hr Hrt]].
  destruct (ts_max_nonempty l') as [m' Hm']; [intros ->; destruct Hr|].
  rewrite Hm'. f_equal.
  destruct (ts_max_in _ _ Hm') as [r' [Hr' Hr't]].
  pose proof (ts_max_upper _ _ Hm r' (Hsub r' Hr')).
  pose proof (ts_max_upper _ _ Hm' r Hr). lia.
Qed.

Lemma load_data_rows (data : DataFrame) (r' : row) :
  In r' (rows (load_data data)) ->
  exists r, In r (rows data) /\
    ts_gt (Some (ts r)) (option_map (fun m => m - one_year) (ts_max (rows data))) = true /\
    r' = mk_row (ts r) (("Total"%string, row_sum (columns data) r)
                        :: drop_key "Total" (vals r)).
Proof.
  unfold load_data, add_total, loc_after. simpl. intros Hin.
  apply in_map_iff in Hin as [r [<- Hr]]. apply filter_In in Hr as [Hr Hp].
  exists r. auto.
Qed.

(** [load_data] keeps exactly the rows of the last 365 days before the
    file's latest timestamp, so the latest timestamp the dashboard shows
    is the file's own. *)
Theorem load_data_keeps_last_year (data : DataFrame) :
  latest_data (load_data data) = ts_max (rows data) /\
  forall m, ts_max (rows data) = Some m ->
  (forall r', In r' (rows (load_data data)) -> m - one_year < ts r' <= m) /\
  (forall r, In r (rows data) -> m - one_year < ts r ->
   exists r', In r' (rows (load_data data)) /\ ts r' = ts r /\
              lookup "Total" (vals r') = Some (row_sum (columns data) r)).
Proof.
  split.
  - unfold latest_data, load_data, add_total, loc_after. simpl.
    rewrite ts_max_same_ts by reflexivity.
    destruct (ts_max (rows data)) as [m|] eqn:Hm.
    + apply (ts_max_sublist (rows data)); [exact Hm | intros r Hr;
        apply filter_In in Hr; tauto|].
      destruct (ts_max_in _ _ Hm) as [r [Hr Hrt]]. exists r. split; [|exact Hrt].
      apply filter_In. split; [exact Hr|]. simpl. apply Z.ltb_lt.
      unfold one_year. lia.
    + destruct (rows data) as [|r l]; [reflexivity|].
      simpl in Hm. destruct (ts_max l); discriminate.
  - intros m Hm. split.
    + intros r' Hr'. destruct (load_data_rows data r' Hr') as [r [Hr [Hp ->]]].
      rewrite Hm in Hp. simpl in Hp |- *. apply Z.ltb_lt in Hp.
      pose proof (ts_max_upper _ _ Hm r Hr). lia.
    + intros r Hr Hlt. eexists. split.
      * unfold load_data, add_total, loc_after. simpl. apply in_map_iff.
        exists r. split; [reflexivity|]. apply filter_In. split; [exact Hr|].
        rewrite Hm. simpl. now apply Z.ltb_lt.
      * split; reflexivity.
Qed.

Definition three_days : DataFrame :=
  mk_df ["Europe"%string]
    [one_region 0 1; one_region (200 * 86400000) 2; one_region (400 * 86400000) 3].

Lemma load_data_keeps_last_year_witness :
  400 * 86400000 - one_year < 200 * 86400000 <= 400 * 86400000.
Proof.
  exact (proj1 (proj2 (load_data_keeps_last_year three_days)
                  (400 * 86400000) eq_refl)
           (mk_row (200 * 86400000) [("Total"%string, 2); ("Europe"%string, 2)])
           ltac:(vm_compute; auto)).
Defined.

Example load_data_drops_old_row :
  map ts (rows (load_data three_days)) = [200 * 86400000; 400 * 86400000].
Proof. reflexivity. Qed.

Lemma lookup_drop_key (c k : string) (vs : list (string * Z)) :
  c <> k -> lookup c (drop_key k vs) = lookup c vs.
Proof.
  intros Hck. induction vs as [|[k' v] vs IH]; [reflexivity|]. simpl.
  destruct (String.eqb_spec k' k) as [->|Hne]; simpl.
  - rewrite IH. destruct (String.eqb_spec k c); [congruence | reflexivity].
  - destruct (String.eqb k' c); [reflexivity | exact IH].
Qed.

Lemma stacked_height_app (a b : list melted) (t : timestamp) :
  stacked_height (a ++ b) t = stacked_height a t + stacked_height b t.
Proof.
  unfold stacked_height. induction a as [|m a IH]; cbn [app fold_right]; [lia|].
  rewrite IH. destruct (m_ts m =? t); [destruct (bandwidth m)|]; lia.
Qed.

Lemma stacked_height_absent (c : string) (l : list row) (t : timestamp) :
  ~ In t (map ts l) ->
  stacked_height (map (fun r => mk_melted (ts r) c (lookup c (vals r))) l) t = 0.
Proof.
  unfold stacked_height. induction l as [|r l IH]; intros Hn; [reflexivity|].
  cbn [map fold_right m_ts bandwidth]. destruct (Z.eqb_spec (ts r) t) as [He|_].
  - exfalso. apply Hn. left. exact He.
  - apply IH. intros Hin. apply Hn. right. exact Hin.
Qed.

(** At the timestamp of a row, the entries of one region add up to that
    row's value, when no two rows share a timestamp. *)
Lemma stacked_height_column (c : string) (l : list row) (r0 : row) :
  NoDup (map ts l) -> In r0 l ->
  stacked_height (map (fun r => mk_melted (ts r) c (lookup c (vals r))) l) (ts r0) =
  match lookup c (vals r0) with Some v => v | None => 0 end.
Proof.
  induction l as [|r l IH]; intros Hnd Hin; [destruct Hin|].
  inversion Hnd as [|x y Hnotin Hnd' Heq]; subst.
  destruct Hin as [<-|Hin].
  - change (stacked_height (mk_melted (ts r) c (lookup c (vals r))
              :: map (fun r => mk_melted (ts r) c (lookup c (vals r))) l) (ts r) =
            match lookup c (vals r) with Some v => v | None => 0 end).
    unfold stacked_height at 1. cbn [fold_right m_ts bandwidth].
    rewrite Z.eqb_refl. fold (stacked_height (map (fun r => mk_melted (ts r) c (lookup c (vals r))) l) (ts r)).
    rewrite stacked_height_absent by exact Hnotin.
    destruct (lookup c (vals r)); lia.
  - unfold stacked_height. cbn [map fold_right m_ts bandwidth].
    destruct (Z.eqb_spec (ts r) (ts r0)) as [He|_].
    + exfalso. apply Hnotin. rewrite He. now apply in_map.
    + exact (IH Hnd' Hin).
Qed.

Lemma stacked_height_melt (cs : list string) (l : list row) (r0 : row) :
  NoDup (map ts l) -> In r0 l ->
  stacked_height (melt (mk_df cs l) cs) (ts r0) =
  fold_right (fun c acc => match lookup c (vals r0) with
                           | Some v => v + acc
                           | None => acc
                           end) 0 cs.
Proof.
  intros Hnd Hin. unfold melt. cbn [rows]. induction cs as [|c cs IH]; [reflexivity|].
  cbn [flat_map fold_right]. rewrite stacked_height_app, IH.
  rewrite (stacked_height_column c l r0 Hnd Hin). destruct (lookup c (vals r0)); lia.
Qed.

Lemma fold_row_sum_ext (cs : list string) (r0 r : row) :
  (forall c, In c cs -> lookup c (vals r0) = lookup c (vals r)) ->
  fold_right (fun c acc => match lookup c (vals r0) with
                           | Some v => v + acc
                           | None => acc
                           end) 0 cs = row_sum cs r.
Proof.
  unfold row_sum. induction cs as [|c cs IH]; intros Heq; [reflexivity|].
  cbn [fold_right]. rewrite (Heq c (or_introl eq_refl)), IH; [reflexivity|].
  intros c' Hc'. apply Heq. right. exact Hc'.
Qed.

(** The stacked-area chart is drawn from the dashboard's frame with the
    "Total" column dropped: when the file has no "Total" column of its own
    and no two rows share a timestamp, the height of the stacked area at
    the timestamp of a shown row is exactly that row's "Total". *)
Theorem stacked_area_height_is_total (data : DataFrame) (r' : row) :
  ~ In "Total"%string (columns data) -> NoDup (map ts (rows data)) ->
  In r' (rows (load_data data)) ->
  Some (stacked_height (stacked_area_data (drop_total (load_data data))) (ts r')) =
  lookup "Total" (vals r').
Proof.
  intros Hnt Hnd Hr'.
  destruct (load_data_rows data r' Hr') as [r [Hr [_ Hr'eq]]].
  assert (Hcols : columns (drop_total (load_data data)) = columns data).
  { unfold drop_total, load_data, add_total, loc_after. cbn [columns].
    destruct (existsb (String.eqb "Total") (columns data)) eqn:He.
    - exfalso. apply existsb_exists in He as [c [Hc Heq]].
      apply String.eqb_eq in Heq. subst c. exact (Hnt Hc).
    - rewrite filter_app. cbn [filter]. rewrite String.eqb_refl, app_nil_r.
      clear -Hnt. induction (columns data) as [|c cs IH]; [reflexivity|].
      cbn [filter]. destruct (String.eqb_spec c "Total") as [->|_].
      + exfalso. apply Hnt. now left.
      + cbn [negb]. f_equal. apply IH. intros Hin. apply Hnt. now right. }
  set (r0 := mk_row (ts r') (drop_key "Total" (vals r'))).
  assert (Hin0 : In r0 (rows (drop_total (load_data data)))).
  { unfold drop_total. cbn [rows]. apply in_map_iff. exists r'. auto. }
  assert (Hnd0 : NoDup (map ts (rows (drop_total (load_data data))))).
  { unfold drop_total, load_data, add_total, loc_after. cbn [rows].
    rewrite !map_map. cbn [ts]. rewrite map_ext with (g := ts) by reflexivity.
    rewrite (map_ts_filter (fun t => ts_gt (Some t) _)).
    apply NoDup_filter. exact Hnd. }
  unfold stacked_area_data. rewrite Hcols.
  change (ts r') with (ts r0).
  destruct (drop_total (load_data data)) as [cs l] eqn:Hd. cbn [columns rows] in *.
  subst cs. rewrite (stacked_height_melt (columns data) l r0 Hnd0 Hin0).
  rewrite Hr'eq. cbn [vals lookup fst]. rewrite String.eqb_refl. f_equal.
  apply fold_row_sum_ext. intros c Hc.
  assert (Hct : c <> "Total"%string) by (intros ->; exact (Hnt Hc)).
  subst r0. rewrite Hr'eq. cbn [vals].
  rewrite lookup_drop_key by exact Hct. cbn [lookup].
  destruct (String.eqb_spec "Total" c) as [<-|_]; [congruence|].
  now apply lookup_drop_key.
Qed.

Lemma stacked_area_height_is_total_witness :
  Some (stacked_height (stacked_area_data (drop_total (load_data three_days)))
                       (400 * 86400000)) = Some 3.
Proof.
  exact (stacked_area_height_is_total three_days
           (mk_row (400 * 86400000) [("Total"%string, 3); ("Europe"%string, 3)])
           ltac:(intros [H|[]]; discriminate)
           ltac:(vm_compute; repeat constructor; simpl; intuition discriminate)
           ltac:(vm_compute; auto)).
Defined.
